(** * Library-management back end: catalog, rental and admin routes

    A shallow embedding of the Express routers of the application
    ([routes/book], [routes/users], [routes/admin]) over an explicit model
    of the relational store declared by the initial migration.

    Conventions of the embedding:
    - a table is the list of its rows in insertion order;
    - a handler is a function from its inputs and the store to the
      response it sends and the store it leaves behind;
    - [new Date()] and the generated primary key of a created row are
      inputs of the handler that needs them;
    - a [Date] is its time value (milliseconds since the epoch), a
      [BigInt] is an integer of [Z];
    - the gateway enforces the primary keys, the unique indexes and the
      required column [rental_log.returned_date] of the migration; the
      widths, precisions and collations of the columns and the flash
      messages kept in the session are outside the model. *)

From Stdlib Require Import ZArith List String Ascii Bool Lia DecimalString.
From Stdlib Require Import Sorted Permutation DecimalPos DecimalZ.
Import ListNotations.

Open Scope string_scope.
Open Scope list_scope.
Open Scope Z_scope.

(* ================================================================== *)
(** ** Rows of the five tables (migration [20251126054244_initial]) *)

(** Table [user].  The columns [createdAt] and [updatedAt] are maintained
    by the client library and read by no handler; they are left out. *)
Module User.
Record t := mk
  { id : string; email : string; name : string; password : string;
    is_admin : bool; isDeleted : bool }.
Definition set_name (n : string) (u : t) : t :=
  mk (id u) (email u) n (password u) (is_admin u) (isDeleted u).
End User.

Module Author.
Record t := mk { id : string; name : string; isDeleted : bool }.
Definition set_name (n : string) (a : t) : t := mk (id a) n (isDeleted a).
Definition set_isDeleted (d : bool) (a : t) : t := mk (id a) (name a) d.
End Author.

Module Publisher.
Record t := mk { id : string; name : string; isDeleted : bool }.
Definition set_name (n : string) (p : t) : t := mk (id p) n (isDeleted p).
Definition set_isDeleted (d : bool) (p : t) : t := mk (id p) (name p) d.
End Publisher.

Module Book.
Record t := mk
  { isbn : Z; title : string; author_id : string; publisher_id : string;
    publication_year : Z; publication_month : Z; isDeleted : bool }.
Definition set_title (x : string) (b : t) : t :=
  mk (isbn b) x (author_id b) (publisher_id b)
     (publication_year b) (publication_month b) (isDeleted b).
Definition set_author_id (x : string) (b : t) : t :=
  mk (isbn b) (title b) x (publisher_id b)
     (publication_year b) (publication_month b) (isDeleted b).
Definition set_publisher_id (x : string) (b : t) : t :=
  mk (isbn b) (title b) (author_id b) x
     (publication_year b) (publication_month b) (isDeleted b).
Definition set_publication_year (x : Z) (b : t) : t :=
  mk (isbn b) (title b) (author_id b) (publisher_id b)
     x (publication_month b) (isDeleted b).
Definition set_publication_month (x : Z) (b : t) : t :=
  mk (isbn b) (title b) (author_id b) (publisher_id b)
     (publication_year b) x (isDeleted b).
Definition set_isDeleted (d : bool) (b : t) : t :=
  mk (isbn b) (title b) (author_id b) (publisher_id b)
     (publication_year b) (publication_month b) d.
End Book.

(** Table [rental_log].  The column [returned_date] is required (NOT
    NULL); the handlers nevertheless hand [null] to the client for it
    (`null as any`), so the value a handler passes is an option.  The
    gateway below refuses the [null]. *)
Module RentalLog.
Record t := mk
  { id : string; book_isbn : Z; user_id : string;
    checkout_date : Z; due_date : Z; returned_date : option Z }.
Definition set_returned_date (d : option Z) (r : t) : t :=
  mk (id r) (book_isbn r) (user_id r) (checkout_date r) (due_date r) d.
End RentalLog.

(** The store behind the [prisma] client. *)
Module Db.
Record t := mk
  { user : list User.t; author : list Author.t;
    publisher : list Publisher.t; book : list Book.t;
    rental_log : list RentalLog.t }.
Definition empty : t := mk [] [] [] [] [].
Definition set_user (l : list User.t) (s : t) : t :=
  mk l (author s) (publisher s) (book s) (rental_log s).
Definition set_author (l : list Author.t) (s : t) : t :=
  mk (user s) l (publisher s) (book s) (rental_log s).
Definition set_publisher (l : list Publisher.t) (s : t) : t :=
  mk (user s) (author s) l (book s) (rental_log s).
Definition set_book (l : list Book.t) (s : t) : t :=
  mk (user s) (author s) (publisher s) l (rental_log s).
Definition set_rental_log (l : list RentalLog.t) (s : t) : t :=
  mk (user s) (author s) (publisher s) (book s) l.
End Db.

(* ================================================================== *)
(** ** The persistence gateway *)

(** What a query of the client, or a conversion to [BigInt], throws. *)
Inductive prisma_error :=
| UniqueConstraintFailed (target : string)
| RecordNotFound
| ValidationFailed
| CannotConvert.

Inductive result (A : Type) :=
| Ok (a : A)
| Throw (e : prisma_error).
Arguments Ok {A} a.
Arguments Throw {A} e.

Definition isNull {A} (o : option A) : bool :=
  match o with None => true | Some _ => false end.

(** [!!x] of an object-or-null. *)
Definition truthy {A} (o : option A) : bool := negb (isNull o).

Module Prisma.

Definition findUnique {A} (key : A -> bool) (tbl : list A) : option A :=
  find key tbl.
Definition findFirst {A} (where_ : A -> bool) (tbl : list A) : option A :=
  find where_ tbl.
Definition findMany {A} (where_ : A -> bool) (tbl : list A) : list A :=
  filter where_ tbl.
Definition count {A} (where_ : A -> bool) (tbl : list A) : Z :=
  Z.of_nat (List.length (filter where_ tbl)).

(** [update({ where: key, data })]: throws when no row has the key. *)
Definition update {A} (key : A -> bool) (data : A -> A) (tbl : list A)
  : result (A * list A) :=
  match find key tbl with
  | None => Throw RecordNotFound
  | Some row =>
      Ok (data row, map (fun x => if key x then data x else x) tbl)
  end.

(** [create({ data })] under the unique indexes of the table: the row is
    appended unless it collides with a stored row on one of them. *)
Definition create {A} (collides : A -> A -> bool) (target : string)
           (row : A) (tbl : list A) : result (A * list A) :=
  if existsb (collides row) tbl then Throw (UniqueConstraintFailed target)
  else Ok (row, tbl ++ [row]).

(* where clauses and keys *)
Definition user_id (i : string) (u : User.t) := String.eqb (User.id u) i.
Definition author_id (i : string) (a : Author.t) :=
  String.eqb (Author.id a) i.
Definition publisher_id (i : string) (p : Publisher.t) :=
  String.eqb (Publisher.id p) i.
Definition book_isbn (i : Z) (b : Book.t) := Book.isbn b =? i.
Definition rental_id (i : string) (r : RentalLog.t) :=
  String.eqb (RentalLog.id r) i.

(** [returned_date: { equals: d }] for a date [d]. *)
Definition returned_date_equals (d : Z) (r : RentalLog.t) : bool :=
  match RentalLog.returned_date r with
  | Some d' => d' =? d
  | None => false
  end.

(* unique indexes *)
(** [user]: PRIMARY KEY (id), UNIQUE INDEX user_email_key(email). *)
Definition user_collides (x y : User.t) : bool :=
  String.eqb (User.id x) (User.id y)
  || String.eqb (User.email x) (User.email y).
(** [author], [publisher]: PRIMARY KEY (id). *)
Definition author_collides (x y : Author.t) : bool :=
  String.eqb (Author.id x) (Author.id y).
Definition publisher_collides (x y : Publisher.t) : bool :=
  String.eqb (Publisher.id x) (Publisher.id y).
(** [book]: UNIQUE INDEX book_isbn_key(isbn). *)
Definition book_collides (x y : Book.t) : bool :=
  Book.isbn x =? Book.isbn y.
(** [rental_log]: PRIMARY KEY (id),
    UNIQUE INDEX rental_log_book_isbn_key(book_isbn). *)
Definition rental_log_collides (x y : RentalLog.t) : bool :=
  String.eqb (RentalLog.id x) (RentalLog.id y)
  || (RentalLog.book_isbn x =? RentalLog.book_isbn y).

(* the required column of [rental_log] *)
(** [returned_date] is declared NOT NULL, and the handlers reach [null]
    there only through `null as any`: the client checks a query against
    the schema before it sends it, and refuses a filter or a value that is
    [null] in a required column. *)

(** [rental_log.findFirst({ where: { book_isbn: isbn, returned_date:
    { equals: returned_date } } })] *)
Definition rental_log_findFirst (isbn : Z) (returned_date : option Z)
    (tbl : list RentalLog.t) : result (option RentalLog.t) :=
  match returned_date with
  | None => Throw ValidationFailed
  | Some d =>
      Ok (findFirst
            (fun r => (RentalLog.book_isbn r =? isbn)
                      && returned_date_equals d r) tbl)
  end.

(** [rental_log.findMany({ where: { user_id: id, returned_date:
    { equals: returned_date } } })], before its [orderBy]. *)
Definition rental_log_findMany (id : string) (returned_date : option Z)
    (tbl : list RentalLog.t) : result (list RentalLog.t) :=
  match returned_date with
  | None => Throw ValidationFailed
  | Some d =>
      Ok (findMany
            (fun r => String.eqb (RentalLog.user_id r) id
                      && returned_date_equals d r) tbl)
  end.

(** [rental_log.create({ data: row })] *)
Definition rental_log_create (row : RentalLog.t) (tbl : list RentalLog.t)
  : result (RentalLog.t * list RentalLog.t) :=
  match RentalLog.returned_date row with
  | None => Throw ValidationFailed
  | Some _ => create rental_log_collides "rental_log" row tbl
  end.

End Prisma.

(* ================================================================== *)
(** ** Requests and responses *)

(** JSON values of response bodies and view locals; a [Date] is kept as
    its time value. *)
#[local] Unset Elimination Schemes.
Inductive json :=
| JNull
| JBool (b : bool)
| JNum (n : Z)
| JStr (s : string)
| JDate (ms : Z)
| JArr (items : list json)
| JObj (fields : list (string * json)).
#[local] Set Elimination Schemes.

Fixpoint assoc (k : string) (l : list (string * json)) : option json :=
  match l with
  | [] => None
  | (k', v) :: l' => if String.eqb k' k then Some v else assoc k l'
  end.

Definition field (k : string) (j : json) : option json :=
  match j with JObj l => assoc k l | _ => None end.

Definition JDateOrNull (o : option Z) : json :=
  match o with Some d => JDate d | None => JNull end.

Inductive response :=
| status_json (status : Z) (body : json)      (* res.status(n).json(body) *)
| status_send (status : Z)                    (* res.status(n).send() *)
| render (view : string) (locals : json)      (* res.render(view, locals) *)
| redirect (url : string)                     (* res.redirect(url) *)
| format (html json : response)               (* res.format({ html, json }) *)
| next_error (status : Z) (message : string). (* next(err): the error page *)

(** The status line of a response; that of [res.format] depends on the
    Accept header of the request. *)
Definition status_code (r : response) : option Z :=
  match r with
  | status_json n _ => Some n
  | status_send n => Some n
  | render _ _ => Some 200
  | redirect _ => Some 302
  | format _ _ => None
  | next_error n _ => Some n
  end.

(** The error taxonomy of the service contract and its status codes. *)
Inductive error_kind :=
| ValidationError | Unauthenticated | Forbidden | NotFound | Conflict
| Internal.

Definition http_status (k : error_kind) : Z :=
  match k with
  | ValidationError => 400
  | Unauthenticated => 401
  | Forbidden => 403
  | NotFound => 404
  | Conflict => 409
  | Internal => 500
  end.

Definition fails_with (r : response) (k : error_kind) : Prop :=
  status_code r = Some (http_status k).

Definition succeeds (r : response) : Prop := status_code r = Some 200.

(** [req.user], the identity the session carries. *)
Module Session.
Record user := mk { id : string; name : string }.
End Session.

Definition message (m : string) : json := JObj [("message", JStr m)].

(** [BigInt.prototype.toString] and the interpolation of a number. *)
Definition toString (z : Z) : string := NilZero.string_of_int (Z.to_int z).

(** The text of a thrown error, as far as a response shows it. *)
Definition errorMessage (e : prisma_error) : string :=
  match e with
  | UniqueConstraintFailed target => "Unique constraint failed: " ++ target
  | RecordNotFound => "Record not found"
  | ValidationFailed => "Invalid invocation"
  | CannotConvert => "Cannot convert to a BigInt"
  end.

(* ================================================================== *)
(** ** Rental routes *)

(** POST /book/rental (checkout), for a request whose body was parsed.
    [book_id] is the outcome of [BigInt(req.body.book_id)], [None] when
    the conversion throws; [now] is
    the value of the first [new Date()]; [dueDate] is the value of the
    second one after [dueDate.setDate(dueDate.getDate() + 7)], that is the
    second reading of the clock moved seven calendar days ahead in the
    local time of the server; [uuid] is the primary key generated for the
    new row. *)
Definition post_book_rental
    (user : option Session.user) (book_id : option Z)
    (now dueDate : Z) (uuid : string) (s : Db.t) : response * Db.t :=
  match user with
  | None => (status_json 401 (message "ログインしてください"), s)
  | Some u =>
    match book_id with
    | None => (status_json 400 (message "ISBNの形式が正しくありません"), s)
    | Some isbn =>
      match Prisma.findUnique (Prisma.book_isbn isbn) (Db.book s) with
      | None => (status_json 404 (message "書籍が存在しません"), s)
      | Some _ =>
        match Prisma.rental_log_findFirst isbn None (Db.rental_log s) with
        | Throw _ =>
            (status_json 500 (message "サーバーエラーが発生しました"), s)
        | Ok (Some _) => (status_json 409 (message "既に貸出中です"), s)
        | Ok None =>
          match Prisma.rental_log_create
                  (RentalLog.mk uuid isbn (Session.id u) now dueDate None)
                  (Db.rental_log s) with
          | Throw _ =>
              (status_json 500 (message "サーバーエラーが発生しました"), s)
          | Ok (newRental, tbl) =>
              (status_json 200
                 (JObj [("id", JStr (RentalLog.id newRental));
                        ("checkout_date",
                         JDate (RentalLog.checkout_date newRental));
                        ("due_date", JDate (RentalLog.due_date newRental))]),
               Db.set_rental_log tbl s)
          end
        end
      end
    end
  end.

(** The route for every request: [body] is [None] when no body was
    parsed, and reading [req.body.book_id] then throws inside the [try],
    after the login check. *)
Definition post_book_rental_request
    (user : option Session.user) (body : option (option Z))
    (now dueDate : Z) (uuid : string) (s : Db.t) : response * Db.t :=
  match body with
  | Some book_id => post_book_rental user book_id now dueDate uuid s
  | None =>
    match user with
    | None => (status_json 401 (message "ログインしてください"), s)
    | Some _ => (status_json 500 (message "サーバーエラーが発生しました"), s)
    end
  end.

(** The object [detailData] of GET /book/detail/:isbn; [activeRental] is
    the rental its third query found. *)
Definition detailData (s : Db.t) (book : Book.t)
    (activeRental : option RentalLog.t) : json :=
  let author :=
    Prisma.findUnique (Prisma.author_id (Book.author_id book)) (Db.author s) in
  let publisher :=
    Prisma.findUnique (Prisma.publisher_id (Book.publisher_id book))
      (Db.publisher s) in
  JObj
    [("isbn", JStr (toString (Book.isbn book)));
     ("title", JStr (Book.title book));
     ("author",
      JObj [("name",
             JStr match author with
                  | Some a => Author.name a
                  | None => "不明"
                  end)]);
     ("publisher",
      JObj [("name",
             JStr match publisher with
                  | Some p => Publisher.name p
                  | None => "不明"
                  end)]);
     ("publication_year_month",
      JStr (toString (Book.publication_year book) ++ "." ++
            toString (Book.publication_month book)));
     ("is_rental", JBool (truthy activeRental))].

(** The [res.format] block that closes GET /book/detail/:isbn. *)
Definition detailPage (book : Book.t) (detailData : json) : response :=
  format
    (render "book/detail"
       (JObj [("title", JStr ("詳細: " ++ Book.title book));
              ("book", detailData)]))
    (status_json 200 detailData).

(** GET /book/detail/:isbn (getBookDetail).  [isbn] is the outcome of
    [BigInt(req.params.isbn)].  A query that throws rejects the
    [Promise.all]; the error carries no status and reaches the error
    handler of the application, which answers 500. *)
Definition get_book_detail (isbn : option Z) (s : Db.t) : response :=
  match isbn with
  | None => next_error 404 "ISBNの形式が正しくありません"
  | Some isbn =>
    match Prisma.findUnique (Prisma.book_isbn isbn) (Db.book s) with
    | None => next_error 404 "書籍が見つかりません"
    | Some book =>
      match Prisma.rental_log_findFirst isbn None (Db.rental_log s) with
      | Throw e => next_error 500 (errorMessage e)
      | Ok activeRental => detailPage book (detailData s book activeRental)
      end
    end
  end.

(** PUT /users/return (returnBook).  [rentalId] is [req.body.id], [None]
    when the body carries no string there (the query then throws). *)
Definition put_users_return
    (user : option Session.user) (rentalId : option string) (now : Z)
    (s : Db.t) : response * Db.t :=
  match user with
  | None => (status_json 401 (message "ログインしてください"), s)
  | Some u =>
    match rentalId with
    | None => (status_json 500 (message "サーバーエラーが発生しました"), s)
    | Some rentalId =>
      match Prisma.findUnique (Prisma.rental_id rentalId)
              (Db.rental_log s) with
      | None => (status_json 404 (message "存在しない貸出記録です"), s)
      | Some rental =>
        if negb (String.eqb (RentalLog.user_id rental) (Session.id u)) then
          (status_json 403 (message "他のユーザの貸出書籍です"), s)
        else
          match Prisma.update (Prisma.rental_id rentalId)
                  (RentalLog.set_returned_date (Some now))
                  (Db.rental_log s) with
          | Throw _ =>
              (status_json 500 (message "サーバーエラーが発生しました"), s)
          | Ok (updatedRental, tbl) =>
              (status_json 200
                 (JObj [("id", JStr (RentalLog.id updatedRental));
                        ("returned_date",
                         JDateOrNull
                           (RentalLog.returned_date updatedRental))]),
               Db.set_rental_log tbl s)
          end
      end
    end
  end.

(* ================================================================== *)
(** ** Strings of the requests *)

(** A string is UTF-8 text; [bytes] lists its bytes. *)
Definition bytes (s : string) : list N :=
  map N_of_ascii (list_ascii_of_string s).

(** Removal of leading white space and line terminators (the
    [StrWhiteSpaceChar] production): TAB, LF, VT, FF, CR, SP, U+00A0,
    U+1680, U+2000..U+200A, U+2028, U+2029, U+202F, U+205F, U+3000 and
    U+FEFF, in their UTF-8 encodings. *)
Fixpoint trimStart (l : list N) : list N :=
  match l with
  | c :: r =>
      if ((9 <=? c) && (c <=? 13) || (c =? 32))%N then trimStart r
      else
        match l with
        | 194 :: 160 :: r2 => trimStart r2
        | 225 :: 154 :: 128 :: r3 => trimStart r3
        | 226 :: 128 :: c3 :: r3 =>
            if ((128 <=? c3) && (c3 <=? 138) || (c3 =? 168) || (c3 =? 169)
                || (c3 =? 175))%N
            then trimStart r3 else l
        | 226 :: 129 :: 159 :: r3 => trimStart r3
        | 227 :: 128 :: 128 :: r3 => trimStart r3
        | 239 :: 187 :: 191 :: r3 => trimStart r3
        | _ => l
        end
  | [] => []
  end%N.

Definition isDigit (c : N) : bool := ((48 <=? c) && (c <=? 57))%N.

(** The longest prefix of decimal digits. *)
Fixpoint digits (l : list N) : list N :=
  match l with
  | c :: r => if isDigit c then c :: digits r else []
  | [] => []
  end.

Definition digitsValue (l : list N) : Z :=
  fold_left (fun acc c => acc * 10 + (Z.of_N c - 48)) l 0.

(** [parseInt(str, 10)]; [None] is NaN.  The result is the mathematical
    integer of the digits; the number the program gets is the double
    nearest to it, which is that integer up to 2^53. *)
Definition parseInt (str : string) : option Z :=
  let inputS := trimStart (bytes str) in
  let '(sign, inputS) :=
    match inputS with
    | 45%N :: r => (-1, r)
    | 43%N :: r => (1, r)
    | _ => (1, inputS)
    end in
  match digits inputS with
  | [] => None
  | ds => Some (sign * digitsValue ds)
  end.

(** [a || b] on strings that may be undefined. *)
Definition orElse (a : option string) (b : string) : string :=
  match a with
  | Some (String c r) => String c r
  | _ => b
  end.

(** [name: { contains: keyword }]: the keyword occurs in the name.  The
    database compares with the collation of the column
    (utf8mb4_unicode_ci, which ignores case) and reads [%] and [_] in the
    keyword as wildcards; both are outside the model, where the keyword
    occurs as it is written.  The development relies on [contains] for
    the empty keyword only, which occurs in every name. *)
Fixpoint contains (keyword name : string) : bool :=
  if String.prefix keyword name then true
  else match name with
       | EmptyString => false
       | String _ rest => contains keyword rest
       end.

(** [orderBy]: a stable insertion sort; [before y x] says that [y] sorts
    strictly before [x].  Rows that tie keep the order of the table. *)
Fixpoint insertBy {A} (before : A -> A -> bool) (x : A) (l : list A)
  : list A :=
  match l with
  | [] => [x]
  | y :: l' => if before y x then y :: insertBy before x l' else x :: y :: l'
  end.

Definition orderBy {A} (before : A -> A -> bool) (l : list A) : list A :=
  fold_right (insertBy before) [] l.

(** [take] and [skip] of a query. *)
Definition take {A} (n : Z) (l : list A) : list A := firstn (Z.to_nat n) l.
Definition skip {A} (n : Z) (l : list A) : list A := skipn (Z.to_nat n) l.

(** [Math.ceil(a / b)] for a count [a] and a positive [b]. *)
Definition ceilDiv (a b : Z) : Z := - ((- a) / b).

(* ================================================================== *)
(** ** Catalog routes *)

Definition ITEMS_PER_PAGE : Z := 5.

(** The [try] block of GET /book/search/author (searchAuthors) for a
    request whose body was parsed; [keyword] is [req.body.keyword]. *)
Definition get_book_search_author (keyword : option string) (s : Db.t)
  : response :=
  let keyword := orElse keyword "" in
  let authors :=
    Prisma.findMany
      (fun a => negb (Author.isDeleted a) && contains keyword (Author.name a))
      (Db.author s) in
  status_json 200
    (JObj [("authors",
            JArr (map (fun a => JObj [("id", JStr (Author.id a));
                                      ("name", JStr (Author.name a))])
                      authors))]).

(** The [try] block of GET /book/search/publisher (searchPublishers) for
    a request whose body was parsed. *)
Definition get_book_search_publisher (keyword : option string) (s : Db.t)
  : response :=
  let keyword := orElse keyword "" in
  let publishers :=
    Prisma.findMany
      (fun p => negb (Publisher.isDeleted p)
                && contains keyword (Publisher.name p))
      (Db.publisher s) in
  status_json 200
    (JObj [("publishers",
            JArr (map (fun p => JObj [("id", JStr (Publisher.id p));
                                      ("name", JStr (Publisher.name p))])
                      publishers))]).

(** GET /book/search/author and GET /book/search/publisher as the router
    runs them.  [body] is [req.body]: [None] when no body was parsed, in
    which case reading [req.body.keyword] throws and the [catch] answers
    500; otherwise the keyword field of the body. *)
Definition search_author (body : option (option string)) (s : Db.t)
  : response :=
  match body with
  | None => status_json 500 (message "Error")
  | Some keyword => get_book_search_author keyword s
  end.

Definition search_publisher (body : option (option string)) (s : Db.t)
  : response :=
  match body with
  | None => status_json 500 (message "Error")
  | Some keyword => get_book_search_publisher keyword s
  end.

(** [orderBy: [{ publication_year: 'desc' }, { publication_month: 'desc' }]] *)
Definition newerFirst (y x : Book.t) : bool :=
  (Book.publication_year y >? Book.publication_year x)
  || ((Book.publication_year y =? Book.publication_year x)
      && (Book.publication_month y >? Book.publication_month x)).

Definition notDeleted (b : Book.t) : bool := negb (Book.isDeleted b).

Definition totalCount (s : Db.t) : Z := Prisma.count notDeleted (Db.book s).

(** [Math.ceil(totalCount / ITEMS_PER_PAGE) || 1] *)
Definition lastPage (s : Db.t) : Z :=
  let c := ceilDiv (totalCount s) ITEMS_PER_PAGE in
  if c =? 0 then 1 else c.

(** The page number after both adjustments of [handleListRequest]. *)
Definition currentPage (page : option string) (s : Db.t) : Z :=
  let pageParam := orElse page "1" in
  let currentPage :=
    match parseInt pageParam with
    | None => 1
    | Some n => if n <? 1 then 1 else n
    end in
  if currentPage >? lastPage s then lastPage s else currentPage.

Definition booksRaw (page : option string) (s : Db.t) : list Book.t :=
  take ITEMS_PER_PAGE
    (skip ((currentPage page s - 1) * ITEMS_PER_PAGE)
       (orderBy newerFirst (Prisma.findMany notDeleted (Db.book s)))).

Definition publication_year_month (book : Book.t) : json :=
  JStr (toString (Book.publication_year book) ++ "." ++
        toString (Book.publication_month book)).

Definition books (page : option string) (s : Db.t) : list json :=
  map (fun book =>
         let author :=
           Prisma.findUnique (Prisma.author_id (Book.author_id book))
             (Db.author s) in
         JObj [("isbn", JStr (toString (Book.isbn book)));
               ("title", JStr (Book.title book));
               ("author",
                JObj [("name",
                       JStr match author with
                            | Some a => Author.name a
                            | None => "不明な著者"
                            end)]);
               ("publication_year_month", publication_year_month book)])
      (booksRaw page s).

(** GET /book/list/:page and GET /book/list (listBooks); [page] is
    [req.params.page]. *)
Definition handleListRequest (page : option string) (s : Db.t) : response :=
  let data :=
    JObj [("current", JNum (currentPage page s));
          ("last_page", JNum (lastPage s));
          ("books", JArr (books page s))] in
  format
    (render "book/list" (JObj [("title", JStr "書籍一覧"); ("data", data)]))
    (status_json 200 data).

(* ================================================================== *)
(** ** User routes that write to the store *)

(** [!x] of a string that may be undefined. *)
Definition falsy (a : option string) : bool :=
  match a with
  | Some (String _ _) => false
  | _ => true
  end.

(** POST /users/register.  [hashedPassword] is the outcome of
    [argon2.hash(password)], [uuid] the key generated for the row. *)
Definition post_users_register
    (name email password : option string) (hashedPassword uuid : string)
    (s : Db.t) : response * Db.t :=
  let failed (reason : string) :=
    format (redirect "/users/register")
           (status_json 400 (JObj [("reason", JStr reason)])) in
  if falsy email || falsy name || falsy password then
    (failed "パラメータ不足", s)
  else
    match Prisma.create Prisma.user_collides "user"
            (User.mk uuid (orElse email "") (orElse name "") hashedPassword
               false false)
            (Db.user s) with
    | Throw e => (failed (errorMessage e), s)
    | Ok (_, tbl) =>
        (format (redirect "/users/login") (status_send 200),
         Db.set_user tbl s)
    end.

(** PUT /users/change.  [name] is [req.body.name] when it is a string. *)
Definition put_users_change
    (user : option Session.user) (name : option string) (s : Db.t)
  : response * Db.t :=
  match user with
  | None => (status_json 401 (JObj [("reason", JStr "ログインしていません")]), s)
  | Some u =>
    match name with
    | Some newName =>
      match trimStart (bytes newName) with
      | [] =>
          (status_json 400 (JObj [("reason", JStr "名前が入力されていません")]),
           s)
      | _ =>
        match Prisma.update (Prisma.user_id (Session.id u))
                (User.set_name newName) (Db.user s) with
        | Throw _ =>
            (status_json 500
               (JObj [("reason", JStr "サーバーエラーが発生しました")]), s)
        | Ok (_, tbl) =>
            (status_json 200 (message "更新しました"), Db.set_user tbl s)
        end
      end
    | None =>
        (status_json 400 (JObj [("reason", JStr "名前が入力されていません")]), s)
    end
  end.

(* ================================================================== *)
(** ** Admin routes *)

(** What [req.accepts] answers for the two types the routes ask about. *)
Record accepts := { accepts_html : bool; accepts_json : bool }.

(** A middleware either sends a response or calls [next()]. *)
Inductive middleware :=
| respond (r : response)
| next.

(** The admin gate, mounted in front of every route of the admin router. *)
Definition requireAdmin
    (user : option Session.user) (acc : accepts) (s : Db.t) : middleware :=
  let reject (m : string) :=
    if accepts_json acc && negb (accepts_html acc)
    then respond (status_json 403 (message m))
    else respond (redirect "/") in
  match user with
  | None => reject "ログインしていません"
  | Some u =>
    if String.eqb (Session.id u) "" then reject "ログインしていません"
    else
      let currentUser :=
        Prisma.findUnique (Prisma.user_id (Session.id u)) (Db.user s) in
      let isAdmin :=
        match currentUser with
        | Some cu => User.is_admin cu
        | None => false
        end in
      if negb isAdmin then reject "管理者権限がありません" else next
  end.

Definition authorJson (a : Author.t) : json :=
  JObj [("id", JStr (Author.id a)); ("name", JStr (Author.name a));
        ("isDeleted", JBool (Author.isDeleted a))].

Definition publisherJson (p : Publisher.t) : json :=
  JObj [("id", JStr (Publisher.id p)); ("name", JStr (Publisher.name p));
        ("isDeleted", JBool (Publisher.isDeleted p))].

(** [findMany({ where: { isDeleted: false }, orderBy: { name: 'asc' } })] *)
Definition authorsByName (s : Db.t) : list Author.t :=
  orderBy (fun y x => String.ltb (Author.name y) (Author.name x))
    (Prisma.findMany (fun a => negb (Author.isDeleted a)) (Db.author s)).

Definition publishersByName (s : Db.t) : list Publisher.t :=
  orderBy (fun y x => String.ltb (Publisher.name y) (Publisher.name x))
    (Prisma.findMany (fun p => negb (Publisher.isDeleted p))
       (Db.publisher s)).

(** GET /admin/author *)
Definition get_admin_author (s : Db.t) : response :=
  let authors := JArr (map authorJson (authorsByName s)) in
  format
    (render "admin/author"
       (JObj [("title", JStr "著者管理"); ("authors", authors)]))
    (status_json 200 (JObj [("authors", authors)])).

(** POST /admin/author *)
Definition post_admin_author (name : option string) (uuid : string)
    (s : Db.t) : response * Db.t :=
  let failed (m : string) :=
    format (redirect "/admin/author?error=failed")
           (status_json 400 (message m)) in
  if falsy name then (failed "著者名は必須です", s)
  else
    match Prisma.create Prisma.author_collides "author"
            (Author.mk uuid (orElse name "") false) (Db.author s) with
    | Throw e => (failed (errorMessage e), s)
    | Ok (newAuthor, tbl) =>
        (format (redirect "/admin/author")
           (status_json 200
              (JObj [("id", JStr (Author.id newAuthor));
                     ("name", JStr (Author.name newAuthor))])),
         Db.set_author tbl s)
    end.

(** [data: { name }]: an undefined field leaves the column as it is. *)
Definition assign {A B} (set : B -> A -> A) (v : option B) (row : A) : A :=
  match v with
  | Some b => set b row
  | None => row
  end.

(** PUT /admin/author *)
Definition put_admin_author (id name : option string) (s : Db.t)
  : response * Db.t :=
  match id with
  | None => (status_json 400 (message "更新失敗"), s)
  | Some id =>
    match Prisma.update (Prisma.author_id id) (assign Author.set_name name)
            (Db.author s) with
    | Throw _ => (status_json 400 (message "更新失敗"), s)
    | Ok (updated, tbl) =>
        (status_json 200
           (JObj [("id", JStr (Author.id updated));
                  ("name", JStr (Author.name updated))]),
         Db.set_author tbl s)
    end
  end.

(** DELETE /admin/author *)
Definition delete_admin_author (id : option string) (s : Db.t)
  : response * Db.t :=
  match id with
  | None => (status_json 400 (message "削除失敗"), s)
  | Some id =>
    match Prisma.update (Prisma.author_id id) (Author.set_isDeleted true)
            (Db.author s) with
    | Throw _ => (status_json 400 (message "削除失敗"), s)
    | Ok (_, tbl) =>
        (status_json 200 (message "削除しました"), Db.set_author tbl s)
    end
  end.

(** GET /admin/publisher *)
Definition get_admin_publisher (s : Db.t) : response :=
  let publishers := JArr (map publisherJson (publishersByName s)) in
  format
    (render "admin/publisher"
       (JObj [("title", JStr "出版社管理"); ("publishers", publishers)]))
    (status_json 200 (JObj [("publishers", publishers)])).

(** POST /admin/publisher *)
Definition post_admin_publisher (name : option string) (uuid : string)
    (s : Db.t) : response * Db.t :=
  let failed (m : string) :=
    format (redirect "/admin/publisher?error=failed")
           (status_json 400 (message m)) in
  if falsy name then (failed "出版社名は必須です", s)
  else
    match Prisma.create Prisma.publisher_collides "publisher"
            (Publisher.mk uuid (orElse name "") false) (Db.publisher s) with
    | Throw e => (failed (errorMessage e), s)
    | Ok (newPub, tbl) =>
        (format (redirect "/admin/publisher")
           (status_json 200
              (JObj [("id", JStr (Publisher.id newPub));
                     ("name", JStr (Publisher.name newPub))])),
         Db.set_publisher tbl s)
    end.

(** PUT /admin/publisher *)
Definition put_admin_publisher (id name : option string) (s : Db.t)
  : response * Db.t :=
  match id with
  | None => (status_json 400 (message "更新失敗"), s)
  | Some id =>
    match Prisma.update (Prisma.publisher_id id)
            (assign Publisher.set_name name) (Db.publisher s) with
    | Throw _ => (status_json 400 (message "更新失敗"), s)
    | Ok (updated, tbl) =>
        (status_json 200
           (JObj [("id", JStr (Publisher.id updated));
                  ("name", JStr (Publisher.name updated))]),
         Db.set_publisher tbl s)
    end
  end.

(** DELETE /admin/publisher *)
Definition delete_admin_publisher (id : option string) (s : Db.t)
  : response * Db.t :=
  match id with
  | None => (status_json 400 (message "削除失敗"), s)
  | Some id =>
    match Prisma.update (Prisma.publisher_id id)
            (Publisher.set_isDeleted true) (Db.publisher s) with
    | Throw _ => (status_json 400 (message "削除失敗"), s)
    | Ok (_, tbl) =>
        (status_json 200 (message "削除しました"), Db.set_publisher tbl s)
    end
  end.

(** The rows of GET /admin/book. *)
Definition adminBookJson (s : Db.t) (book : Book.t) : json :=
  let author :=
    Prisma.findUnique (Prisma.author_id (Book.author_id book)) (Db.author s) in
  let publisher :=
    Prisma.findUnique (Prisma.publisher_id (Book.publisher_id book))
      (Db.publisher s) in
  JObj [("isbn", JStr (toString (Book.isbn book)));
        ("title", JStr (Book.title book));
        ("authorName",
         JStr match author with Some a => Author.name a | None => "不明" end);
        ("publisherName",
         JStr match publisher with
              | Some p => Publisher.name p
              | None => "不明"
              end);
        ("publication_year_month", publication_year_month book);
        ("author_id", JStr (Book.author_id book));
        ("publisher_id", JStr (Book.publisher_id book));
        ("year", JNum (Book.publication_year book));
        ("month", JNum (Book.publication_month book))].

(** GET /admin/book *)
Definition get_admin_book (s : Db.t) : response :=
  let booksRaw :=
    orderBy newerFirst (Prisma.findMany notDeleted (Db.book s)) in
  let books := JArr (map (adminBookJson s) booksRaw) in
  format
    (render "admin/book"
       (JObj [("title", JStr "書籍管理"); ("books", books);
              ("authors", JArr (map authorJson (authorsByName s)));
              ("publishers", JArr (map publisherJson (publishersByName s)))]))
    (status_json 200 (JObj [("books", books)])).

(** POST /admin/book.  [isbn] is [None] when [req.body.isbn] is falsy,
    otherwise the outcome of [BigInt(isbn)]; the year and the month are the
    outcomes of [parseInt], [None] for NaN. *)
Definition post_admin_book
    (isbn : option (option Z)) (title author_id publisher_id : option string)
    (publication_year publication_month : option Z) (s : Db.t)
  : response * Db.t :=
  let failed (m : string) :=
    format (redirect "/admin/book?error=failed")
           (status_json 400 (message m)) in
  match isbn with
  | None => (failed "必須項目不足", s)
  | Some isbn =>
    if falsy title then (failed "必須項目不足", s)
    else
      match isbn with
      | None => (failed "ISBN形式エラー", s)
      | Some isbnBig =>
        let exists_ :=
          Prisma.findUnique (Prisma.book_isbn isbnBig) (Db.book s) in
        if match exists_ with
           | Some b => negb (Book.isDeleted b)
           | None => false
           end
        then (failed "登録済みISBN", s)
        else
          match
            match author_id, publisher_id, publication_year,
                  publication_month with
            | Some a, Some p, Some y, Some m =>
                Prisma.create Prisma.book_collides "book"
                  (Book.mk isbnBig (orElse title "") a p y m false)
                  (Db.book s)
            | _, _, _, _ => Throw ValidationFailed
            end
          with
          | Throw e => (failed (errorMessage e), s)
          | Ok (_, tbl) =>
              (format (redirect "/admin/book")
                 (status_json 200 (message "登録しました")),
               Db.set_book tbl s)
          end
      end
  end.

(** PUT /admin/book.  [isbn] is the outcome of [BigInt(req.body.isbn)]. *)
Definition put_admin_book
    (isbn : option Z) (title author_id publisher_id : option string)
    (publication_year publication_month : option Z) (s : Db.t)
  : response * Db.t :=
  match isbn with
  | None => (status_json 400 (message (errorMessage CannotConvert)), s)
  | Some isbnBig =>
    match
      match publication_year, publication_month with
      | Some y, Some m =>
          Prisma.update (Prisma.book_isbn isbnBig)
            (fun b =>
               Book.set_publication_month m
                 (Book.set_publication_year y
                    (assign Book.set_publisher_id publisher_id
                       (assign Book.set_author_id author_id
                          (assign Book.set_title title b)))))
            (Db.book s)
      | _, _ => Throw ValidationFailed
      end
    with
    | Throw e => (status_json 400 (message (errorMessage e)), s)
    | Ok (_, tbl) =>
        (status_json 200 (message "更新しました"), Db.set_book tbl s)
    end
  end.

(** DELETE /admin/book *)
Definition delete_admin_book (isbn : option Z) (s : Db.t)
  : response * Db.t :=
  match isbn with
  | None => (status_json 400 (message "削除失敗"), s)
  | Some isbnBig =>
    match Prisma.update (Prisma.book_isbn isbnBig) (Book.set_isDeleted true)
            (Db.book s) with
    | Throw _ => (status_json 400 (message "削除失敗"), s)
    | Ok (_, tbl) =>
        (status_json 200 (message "削除しました"), Db.set_book tbl s)
    end
  end.

(** The operations of the admin router, with the fields of their bodies. *)
Inductive admin_op :=
| ListAuthors
| CreateAuthor (name : option string) (uuid : string)
| UpdateAuthor (id name : option string)
| DeleteAuthor (id : option string)
| ListPublishers
| CreatePublisher (name : option string) (uuid : string)
| UpdatePublisher (id name : option string)
| DeletePublisher (id : option string)
| ListBooks
| CreateBook (isbn : option (option Z))
    (title author_id publisher_id : option string)
    (publication_year publication_month : option Z)
| UpdateBook (isbn : option Z)
    (title author_id publisher_id : option string)
    (publication_year publication_month : option Z)
| DeleteBook (isbn : option Z).

(** The handler behind the gate. *)
Definition admin_handler (op : admin_op) (s : Db.t) : response * Db.t :=
  match op with
  | ListAuthors => (get_admin_author s, s)
  | CreateAuthor name uuid => post_admin_author name uuid s
  | UpdateAuthor id name => put_admin_author id name s
  | DeleteAuthor id => delete_admin_author id s
  | ListPublishers => (get_admin_publisher s, s)
  | CreatePublisher name uuid => post_admin_publisher name uuid s
  | UpdatePublisher id name => put_admin_publisher id name s
  | DeletePublisher id => delete_admin_publisher id s
  | ListBooks => (get_admin_book s, s)
  | CreateBook isbn title a p y m => post_admin_book isbn title a p y m s
  | UpdateBook isbn title a p y m => put_admin_book isbn title a p y m s
  | DeleteBook isbn => delete_admin_book isbn s
  end.

(** [router.METHOD(path, requireAdmin, handler)] *)
Definition admin
    (user : option Session.user) (acc : accepts) (op : admin_op) (s : Db.t)
  : response * Db.t :=
  match requireAdmin user acc s with
  | respond r => (r, s)
  | next => admin_handler op s
  end.

(* ================================================================== *)
(** ** The application *)

(** A request to one of the routes above, with the inputs of its
    handler.  The remaining routes of the application (the login and
    registration pages, the login itself, the history and return pages and
    the search bridge) read the store and never write to it. *)
Inductive request :=
| GET_book_search_author (keyword : option string)
| GET_book_search_publisher (keyword : option string)
| GET_book_list (page : option string)
| POST_book_rental (user : option Session.user) (book_id : option Z)
    (now dueDate : Z) (uuid : string)
| GET_book_detail (isbn : option Z)
| POST_users_register (name email password : option string)
    (hashedPassword uuid : string)
| PUT_users_change (user : option Session.user) (name : option string)
| PUT_users_return (user : option Session.user) (rentalId : option string)
    (now : Z)
| Admin (user : option Session.user) (acc : accepts) (op : admin_op).

Definition app (r : request) (s : Db.t) : response * Db.t :=
  match r with
  | GET_book_search_author k => (get_book_search_author k s, s)
  | GET_book_search_publisher k => (get_book_search_publisher k s, s)
  | GET_book_list page => (handleListRequest page s, s)
  | POST_book_rental u b now due uuid => post_book_rental u b now due uuid s
  | GET_book_detail isbn => (get_book_detail isbn s, s)
  | POST_users_register n e p h uuid => post_users_register n e p h uuid s
  | PUT_users_change u n => put_users_change u n s
  | PUT_users_return u id now => put_users_return u id now s
  | Admin u acc op => admin u acc op s
  end.

(** The store after a sequence of requests served one after the other. *)
Fixpoint serve (rs : list request) (s : Db.t) : Db.t :=
  match rs with
  | [] => s
  | r :: rs' => serve rs' (snd (app r s))
  end.

(* ================================================================== *)
(** ** Routes that read the rentals of a user, and the search bridge *)

Definition JStrOrNull (o : option string) : json :=
  match o with Some m => JStr m | None => JNull end.

(** [orderBy: { checkout_date: 'desc' }] and [orderBy: { checkout_date:
    'asc' }] *)
Definition laterFirst (y x : RentalLog.t) : bool :=
  RentalLog.checkout_date y >? RentalLog.checkout_date x.
Definition earlierFirst (y x : RentalLog.t) : bool :=
  RentalLog.checkout_date y <? RentalLog.checkout_date x.

(** [book ? book.title : '...'] for the book of a rental. *)
Definition titleOrUnknown (s : Db.t) (isbn : Z) : string :=
  match Prisma.findUnique (Prisma.book_isbn isbn) (Db.book s) with
  | Some book => Book.title book
  | None => "書籍不明"
  end.

(** The rentals [logs] of GET /users/history. *)
Definition logs (u : Session.user) (s : Db.t) : list RentalLog.t :=
  orderBy laterFirst
    (Prisma.findMany
       (fun r => String.eqb (RentalLog.user_id r) (Session.id u))
       (Db.rental_log s)).

Definition historyData (s : Db.t) (log : RentalLog.t) : json :=
  JObj [("id", JStr (RentalLog.id log));
        ("book",
         JObj [("isbn", JStr (toString (RentalLog.book_isbn log)));
               ("name", JStr (titleOrUnknown s (RentalLog.book_isbn log)))]);
        ("checkout_date", JDate (RentalLog.checkout_date log));
        ("due_date", JDate (RentalLog.due_date log));
        ("returned_date", JDateOrNull (RentalLog.returned_date log))].

(** GET /users/history (history).  [error] is the outcome of
    [(req.session.messages || []).pop()]. *)
Definition get_users_history
    (user : option Session.user) (error : option string) (s : Db.t)
  : response :=
  match user with
  | None =>
      format (redirect "/users/login")
             (status_json 401 (message "未ログイン"))
  | Some u =>
      let history := JArr (map (historyData s) (logs u s)) in
      format
        (render "users/history"
           (JObj [("title", JStr "History"); ("history", history);
                  ("error", JStrOrNull error)]))
        (status_json 200 (JObj [("history", history)]))
  end.

(** The rentals [rentals] of GET /users/return: the query, then its
    [orderBy]. *)
Definition rentals (u : Session.user) (s : Db.t)
  : result (list RentalLog.t) :=
  match Prisma.rental_log_findMany (Session.id u) None (Db.rental_log s) with
  | Throw e => Throw e
  | Ok l => Ok (orderBy earlierFirst l)
  end.

Definition rentalData (s : Db.t) (rental : RentalLog.t) : json :=
  JObj [("id", JStr (RentalLog.id rental));
        ("book",
         JObj [("title",
                JStr (titleOrUnknown s (RentalLog.book_isbn rental)));
               ("isbn", JStr (toString (RentalLog.book_isbn rental)))]);
        ("checkout_date", JDate (RentalLog.checkout_date rental));
        ("due_date", JDate (RentalLog.due_date rental))].

(** GET /users/return (pendingReturns); a query that throws goes to
    [next(error)]. *)
Definition get_users_return (user : option Session.user) (s : Db.t)
  : response :=
  match user with
  | None => redirect "/users/login"
  | Some u =>
    match rentals u s with
    | Throw e => next_error 500 (errorMessage e)
    | Ok rentals =>
        render "users/return"
          (JObj [("title", JStr "返却手続き");
                 ("rentals", JArr (map (rentalData s) rentals))])
    end
  end.



(* ================================================================== *)
(** ** Properties of stores *)

(** The columns of a rental that no route rewrites. *)
Definition rentalKey (r : RentalLog.t) : string * Z * string * Z * Z :=
  (RentalLog.id r, RentalLog.book_isbn r, RentalLog.user_id r,
   RentalLog.checkout_date r, RentalLog.due_date r).

Definition extends {A} (l l' : list A) : Prop := exists t, l' = l ++ t.

(** [evolves s s']: [s'] keeps every rental of [s], in place and with the
    same key columns, and every isbn of the book table of [s]. *)
Definition evolves (s s' : Db.t) : Prop :=
  extends (map rentalKey (Db.rental_log s)) (map rentalKey (Db.rental_log s'))
  /\ extends (map Book.isbn (Db.book s)) (map Book.isbn (Db.book s')).


(** The primary keys and unique indexes of the migration. *)
Record schema_ok (s : Db.t) : Prop := {
  user_pkey : NoDup (map User.id (Db.user s));
  user_email_key : NoDup (map User.email (Db.user s));
  author_pkey : NoDup (map Author.id (Db.author s));
  publisher_pkey : NoDup (map Publisher.id (Db.publisher s));
  book_isbn_key : NoDup (map Book.isbn (Db.book s));
  rental_log_pkey : NoDup (map RentalLog.id (Db.rental_log s));
  rental_log_book_isbn_key :
    NoDup (map RentalLog.book_isbn (Db.rental_log s))
}.

(** The required column of the migration: every rental carries a
    [returned_date]. *)
Definition returned_date_required (s : Db.t) : Prop :=
  forall r, In r (Db.rental_log s) -> RentalLog.returned_date r <> None.

(** Every rental refers to a stored book (the tables carry no foreign
    key; the routes keep this). *)
Definition rentals_have_books (s : Db.t) : Prop :=
  forall r, In r (Db.rental_log s) ->
            In (RentalLog.book_isbn r) (map Book.isbn (Db.book s)).

(** A store as the migration allows it, and as the routes keep it. *)
Definition consistent (s : Db.t) : Prop :=
  schema_ok s /\ rentals_have_books s.

(** The number [handleListRequest] reads from its parameter. *)
Definition pageNumber (page : option string) : option Z :=
  parseInt (orElse page "1").

(** The caller is logged in and the user row of that id carries the admin
    role. *)
Definition admin_identity (user : option Session.user) (s : Db.t) : Prop :=
  exists u row,
    user = Some u /\ Session.id u <> "" /\
    Prisma.findUnique (Prisma.user_id (Session.id u)) (Db.user s) = Some row /\
    User.is_admin row = true.

(** The same, for a user row that is not soft-deleted. *)
Definition live_admin_identity (user : option Session.user) (s : Db.t)
  : Prop :=
  exists u row,
    user = Some u /\ Session.id u <> "" /\
    Prisma.findUnique (Prisma.user_id (Session.id u)) (Db.user s) = Some row /\
    User.is_admin row = true /\ User.isDeleted row = false.

(** What the gate answers to a caller it turns away. *)
Definition turned_away (acc : accepts) (r : response) : Prop :=
  if accepts_json acc && negb (accepts_html acc)
  then exists m, r = status_json 403 (message m)
  else r = redirect "/".

(** The rows [select: { id: true, name: true }] returns. *)
Definition idName (id name : string) : json :=
  JObj [("id", JStr id); ("name", JStr name)].

(** The body a response carries: a JSON body, the locals of a view, or
    for [res.format] the JSON alternative. *)
Fixpoint payload (r : response) : option json :=
  match r with
  | status_json _ body => Some body
  | render _ locals => Some locals
  | format _ j => payload j
  | _ => None
  end.

(** The items of the array a response carries under a key. *)
Definition listed (k : string) (r : response) : list json :=
  match payload r with
  | Some body => match field k body with Some (JArr l) => l | _ => [] end
  | None => []
  end.

(** The ids of the administrators. *)
Definition admins (s : Db.t) : list string :=
  map User.id (filter User.is_admin (Db.user s)).

(** [l] is in the order [orderBy before] asks for: no row sorts strictly
    before a row that precedes it. *)
Definition inOrder {A} (before : A -> A -> bool) (l : list A) : Prop :=
  StronglySorted (fun a b => before b a = false) l.

(** The page numbers of a catalog. *)
Definition pageNumbers (s : Db.t) : list Z :=
  map Z.of_nat (seq 1 (Z.to_nat (lastPage s))).

(** The list the pages are cut from: the books that are not soft-deleted,
    newest first. *)
Definition catalog (s : Db.t) : list Book.t :=
  orderBy newerFirst (Prisma.findMany notDeleted (Db.book s)).

(** A field of the body that is a non-empty string. *)
Definition given (a : option string) (x : string) : Prop :=
  a = Some x /\ x <> "".


(* ================================================================== *)
(** ** Stores and callers of the examples *)

Definition alice : Session.user := Session.mk "user-a" "Alice".
Definition bob : Session.user := Session.mk "user-b" "Bob".
Definition carol : Session.user := Session.mk "user-c" "Carol".

Definition jsonOnly : accepts :=
  {| accepts_html := false; accepts_json := true |}.
Definition browser : accepts :=
  {| accepts_html := true; accepts_json := true |}.

(** Two members, a retired administrator (soft-deleted, admin flag still
    set), one book on the shelf and one withdrawn (soft-deleted) book. *)
Definition shelf : Db.t :=
  Db.mk
    [User.mk "user-a" "alice@example.org" "Alice" "$argon2id$a" false false;
     User.mk "user-b" "bob@example.org" "Bob" "$argon2id$b" false false;
     User.mk "user-c" "carol@example.org" "Carol" "$argon2id$c" true true]
    [Author.mk "au-1" "Natsume Soseki" false;
     Author.mk "au-2" "Mori Ogai" true]
    [Publisher.mk "pu-1" "Iwanami" false; Publisher.mk "pu-2" "Shinchosha" true]
    [Book.mk 9780000000001 "Kokoro" "au-1" "pu-1" 1914 4 false;
     Book.mk 9780000000002 "Gan" "au-2" "pu-1" 1911 9 true]
    [].

(** The same with a rental of Alice in the table, and after Alice has
    returned it. *)
Definition shelf_out : Db.t :=
  Db.set_rental_log
    [RentalLog.mk "rental-1" 9780000000001 "user-a" 1764115200000
       1764720000000 (Some 1764115200000)] shelf.
Definition shelf_back : Db.t :=
  snd (put_users_return (Some alice) (Some "rental-1") 1764201600000
         shelf_out).

(** Twelve books on the shelf and a withdrawn one. *)
Definition catalog12 : Db.t :=
  Db.mk [] [Author.mk "au-1" "Natsume Soseki" false] [] 
    (Book.mk 9780000000099 "Withdrawn" "au-1" "pu-1" 2030 1 true ::
     map (fun n => Book.mk (9780000000000 + n) "Volume" "au-1" "pu-1"
                     (2000 + n) 1 false)
         [1; 2; 3; 4; 5; 6; 7; 8; 9; 10; 11; 12])
    [].

(* ================================================================== *)
(** ** The handlers on small inputs *)

Example parseInt_examples :
  parseInt "12" = Some 12 /\ parseInt "  -3px" = Some (-3)
  /\ parseInt "+7" = Some 7 /\ parseInt "0x1f" = Some 0
  /\ parseInt "page" = None /\ parseInt "" = None /\ parseInt "-" = None.
Proof. repeat split. Qed.

Example contains_examples :
  contains "ume" "Natsume Soseki" = true
  /\ contains "Ogai" "Natsume Soseki" = false
  /\ contains "" "" = true.
Proof. repeat split. Qed.

(** Twelve books, five to a page: three pages, newest first; page 4 is
    page 3 again. *)
Example catalog12_pages :
  lastPage catalog12 = 3
  /\ map Book.isbn (booksRaw (Some "1") catalog12)
     = [9780000000012; 9780000000011; 9780000000010; 9780000000009;
        9780000000008]
  /\ map Book.isbn (booksRaw (Some "3") catalog12)
     = [9780000000002; 9780000000001]
  /\ map Book.isbn (booksRaw (Some "4") catalog12)
     = [9780000000002; 9780000000001]
  /\ map Book.isbn (booksRaw None catalog12)
     = map Book.isbn (booksRaw (Some "1") catalog12).
Proof. repeat split. Qed.

(** Rows that tie on year and month keep the order of the table. *)
Example orderBy_is_stable :
  map Book.isbn
    (orderBy newerFirst
       [Book.mk 1 "a" "" "" 2001 5 false; Book.mk 2 "b" "" "" 2003 1 false;
        Book.mk 3 "c" "" "" 2001 5 false; Book.mk 4 "d" "" "" 2001 7 false])
  = [2; 4; 1; 3].
Proof. reflexivity. Qed.

(** The availability query filters the required column by [null]: the
    checkout of a book on the shelf ends in the [catch]. *)
Example checkout_on_the_shelf :
  post_book_rental (Some bob) (Some 9780000000001)
    1764118800000 1764723600000 "rental-2" shelf
  = (status_json 500 (message "サーバーエラーが発生しました"), shelf).
Proof. reflexivity. Qed.

(* ================================================================== *)
(** ** Lemmas about the gateway *)

Section Gateway.
Context {A : Type}.
Variables (key : A -> bool) (data : A -> A).

Lemma find_None_iff (l : list A) :
  find key l = None <-> forall x, In x l -> key x = false.
Proof.
  split.
  - intros H x Hx. exact (find_none key l H x Hx).
  - induction l as [|y l IH]; simpl; intros H; [reflexivity|].
    rewrite (H y (or_introl eq_refl)). apply IH. intros x Hx.
    apply H. now right.
Qed.

Hypothesis data_keeps_key : forall x, key (data x) = key x.

Lemma find_update (l : list A) :
  find key (map (fun x => if key x then data x else x) l)
  = option_map data (find key l).
Proof.
  induction l as [|y l IH]; simpl; [reflexivity|].
  destruct (key y) eqn:K.
  - now rewrite data_keeps_key, K.
  - now rewrite K.
Qed.

Lemma update_found (l : list A) (x : A) :
  find key l = Some x ->
  Prisma.update key data l
  = Ok (data x, map (fun y => if key y then data y else y) l).
Proof. unfold Prisma.update. now intros ->. Qed.

End Gateway.

Lemma rental_id_true (i : string) (r : RentalLog.t) :
  Prisma.rental_id i r = true <-> RentalLog.id r = i.
Proof. unfold Prisma.rental_id. apply String.eqb_eq. Qed.

Lemma book_isbn_true (i : Z) (b : Book.t) :
  Prisma.book_isbn i b = true <-> Book.isbn b = i.
Proof. unfold Prisma.book_isbn. apply Z.eqb_eq. Qed.

Lemma rental_id_set_returned (i : string) (d : option Z) (r : RentalLog.t) :
  Prisma.rental_id i (RentalLog.set_returned_date d r) = Prisma.rental_id i r.
Proof. reflexivity. Qed.

(** A key that is in no row of the table is not found, and conversely. *)
Lemma findUnique_rental_None (i : string) (tbl : list RentalLog.t) :
  Prisma.findUnique (Prisma.rental_id i) tbl = None
  <-> ~ In i (map RentalLog.id tbl).
Proof.
  unfold Prisma.findUnique. rewrite find_None_iff, in_map_iff. split.
  - intros H (r & E & Hr). apply H in Hr. apply rental_id_true in E.
    congruence.
  - intros H r Hr. destruct (Prisma.rental_id i r) eqn:K; [|reflexivity].
    exfalso. apply H. exists r. split; [now apply rental_id_true | exact Hr].
Qed.

Lemma findUnique_book_None (i : Z) (tbl : list Book.t) :
  Prisma.findUnique (Prisma.book_isbn i) tbl = None
  <-> ~ In i (map Book.isbn tbl).
Proof.
  unfold Prisma.findUnique. rewrite find_None_iff, in_map_iff. split.
  - intros H (b & E & Hb). apply H in Hb. apply book_isbn_true in E.
    congruence.
  - intros H b Hb. destruct (Prisma.book_isbn i b) eqn:K; [|reflexivity].
    exfalso. apply H. exists b. split; [now apply book_isbn_true | exact Hb].
Qed.

Lemma findUnique_rental_Some (i : string) (tbl : list RentalLog.t) r :
  Prisma.findUnique (Prisma.rental_id i) tbl = Some r ->
  In r tbl /\ RentalLog.id r = i.
Proof.
  intros H. apply find_some in H. destruct H as [H1 H2].
  split; [exact H1 | now apply rental_id_true].
Qed.

Lemma findUnique_book_Some (i : Z) (tbl : list Book.t) b :
  Prisma.findUnique (Prisma.book_isbn i) tbl = Some b ->
  In b tbl /\ Book.isbn b = i.
Proof.
  intros H. apply find_some in H. destruct H as [H1 H2].
  split; [exact H1 | now apply book_isbn_true].
Qed.

(* ================================================================== *)
(** ** Returning a book *)

(** The response and the store of a return that passes the two checks. *)
Lemma put_users_return_owner s u rentalId now rental :
  Prisma.findUnique (Prisma.rental_id rentalId) (Db.rental_log s)
  = Some rental ->
  RentalLog.user_id rental = Session.id u ->
  put_users_return (Some u) (Some rentalId) now s
  = (status_json 200
       (JObj [("id", JStr rentalId); ("returned_date", JDate now)]),
     Db.set_rental_log
       (map (fun r => if Prisma.rental_id rentalId r
                      then RentalLog.set_returned_date (Some now) r else r)
            (Db.rental_log s)) s).
Proof.
  intros F O. unfold put_users_return. rewrite F, O, String.eqb_refl. simpl.
  pose proof F as F'. unfold Prisma.findUnique in F'.
  rewrite (update_found _ _ _ _ F'). simpl.
  apply findUnique_rental_Some in F. destruct F as [_ ->]. reflexivity.
Qed.

(** C6: [returnBook] answers NotFound when no rental has the id, and
    Forbidden when rentals of that id exist and belong to other users; in
    both cases the store, and so every rental row, is left as it was. *)
Theorem return_rejects_unknown_and_foreign
    (s : Db.t) (u : Session.user) (rentalId : string) (now : Z) :
  (~ In rentalId (map RentalLog.id (Db.rental_log s)) ->
   fails_with (fst (put_users_return (Some u) (Some rentalId) now s)) NotFound
   /\ snd (put_users_return (Some u) (Some rentalId) now s) = s)
  /\
  (In rentalId (map RentalLog.id (Db.rental_log s)) ->
   (forall r, In r (Db.rental_log s) -> RentalLog.id r = rentalId ->
              RentalLog.user_id r <> Session.id u) ->
   fails_with (fst (put_users_return (Some u) (Some rentalId) now s)) Forbidden
   /\ snd (put_users_return (Some u) (Some rentalId) now s) = s).
Proof.
  split.
  - intros H. apply findUnique_rental_None in H.
    unfold put_users_return. rewrite H. split; reflexivity.
  - intros H O. unfold put_users_return.
    destruct (Prisma.findUnique _ _) as [rental|] eqn:F.
    + destruct (findUnique_rental_Some _ _ _ F) as [Hin Hid].
      specialize (O rental Hin Hid). apply String.eqb_neq in O.
      rewrite O. split; reflexivity.
    + apply findUnique_rental_None in F. contradiction.
Qed.

Lemma return_rejects_unknown_and_foreign_witness :
  (fails_with (fst (put_users_return (Some bob) (Some "rental-9") 5 shelf_out))
     NotFound
   /\ snd (put_users_return (Some bob) (Some "rental-9") 5 shelf_out)
      = shelf_out)
  /\
  (fails_with (fst (put_users_return (Some bob) (Some "rental-1") 5 shelf_out))
     Forbidden
   /\ snd (put_users_return (Some bob) (Some "rental-1") 5 shelf_out)
      = shelf_out).
Proof.
  split.
  - apply (proj1 (return_rejects_unknown_and_foreign shelf_out bob
                    "rental-9" 5)).
    simpl. intros [H|[]]. discriminate H.
  - apply (proj2 (return_rejects_unknown_and_foreign shelf_out bob
                    "rental-1" 5)).
    + simpl. left. reflexivity.
    + simpl. intros r [<-|[]] _. simpl. discriminate.
Defined.

(** C7: a return by the owner of a rental that was already returned
    answers 200 again and replaces the stored [returned_date] by the new
    time. *)
Theorem second_return_overwrites
    (s : Db.t) (u : Session.user) (rentalId : string) (rental : RentalLog.t)
    (earlier now : Z) :
  Prisma.findUnique (Prisma.rental_id rentalId) (Db.rental_log s)
  = Some rental ->
  RentalLog.returned_date rental = Some earlier ->
  RentalLog.user_id rental = Session.id u ->
  fst (put_users_return (Some u) (Some rentalId) now s)
  = status_json 200
      (JObj [("id", JStr rentalId); ("returned_date", JDate now)])
  /\ Prisma.findUnique (Prisma.rental_id rentalId)
       (Db.rental_log (snd (put_users_return (Some u) (Some rentalId) now s)))
     = Some (RentalLog.set_returned_date (Some now) rental).
Proof.
  intros F _ O. rewrite (put_users_return_owner _ _ _ now _ F O). simpl.
  split; [reflexivity|].
  unfold Prisma.findUnique in *.
  rewrite find_update by (intros; apply rental_id_set_returned).
  now rewrite F.
Qed.

Lemma second_return_overwrites_witness :
  fst (put_users_return (Some alice) (Some "rental-1") 1764288000000
         shelf_back)
  = status_json 200
      (JObj [("id", JStr "rental-1");
             ("returned_date", JDate 1764288000000)])
  /\ Prisma.findUnique (Prisma.rental_id "rental-1")
       (Db.rental_log
          (snd (put_users_return (Some alice) (Some "rental-1")
                  1764288000000 shelf_back)))
     = Some (RentalLog.set_returned_date (Some 1764288000000)
               (RentalLog.mk "rental-1" 9780000000001 "user-a"
                  1764115200000 1764720000000 (Some 1764201600000))).
Proof.
  apply (second_return_overwrites shelf_back alice "rental-1"
           (RentalLog.mk "rental-1" 9780000000001 "user-a"
              1764115200000 1764720000000 (Some 1764201600000))
           1764201600000 1764288000000); reflexivity.
Defined.

(* ================================================================== *)
(** ** What every route preserves *)

Lemma extends_refl {A} (l : list A) : extends l l.
Proof. exists []. now rewrite app_nil_r. Qed.

Lemma extends_trans {A} (l1 l2 l3 : list A) :
  extends l1 l2 -> extends l2 l3 -> extends l1 l3.
Proof. intros [t ->] [t' ->]. exists (t ++ t'). now rewrite app_assoc. Qed.

Lemma extends_app {A} (l t : list A) : extends l (l ++ t).
Proof. now exists t. Qed.

Lemma evolves_refl (s : Db.t) : evolves s s.
Proof. split; apply extends_refl. Qed.

Lemma evolves_trans (s1 s2 s3 : Db.t) :
  evolves s1 s2 -> evolves s2 s3 -> evolves s1 s3.
Proof.
  intros [R1 B1] [R2 B2]. split; eapply extends_trans; eassumption.
Qed.

Lemma map_update_key {A K} (key : A -> K) (k : A -> bool) (data : A -> A)
    (l : list A) :
  (forall x, key (data x) = key x) ->
  map key (map (fun x => if k x then data x else x) l) = map key l.
Proof.
  intros H. rewrite map_map. apply map_ext. intros x.
  destruct (k x); [apply H | reflexivity].
Qed.

Lemma update_inv {A} (k : A -> bool) (data : A -> A) (l : list A) r tbl :
  Prisma.update k data l = Ok (r, tbl) ->
  tbl = map (fun x => if k x then data x else x) l.
Proof.
  unfold Prisma.update. destruct (find k l); [|discriminate].
  now intros [= _ <-].
Qed.

Lemma create_inv {A} (c : A -> A -> bool) target (row : A) (l : list A)
    r tbl :
  Prisma.create c target row l = Ok (r, tbl) ->
  existsb (c row) l = false /\ r = row /\ tbl = l ++ [row].
Proof.
  unfold Prisma.create. destruct (existsb (c row) l); [discriminate|].
  now intros [= <- <-].
Qed.

(** Steps of a store that [evolves] allows. *)
Lemma evolves_other_tables (s s' : Db.t) :
  Db.rental_log s' = Db.rental_log s -> Db.book s' = Db.book s ->
  evolves s s'.
Proof. intros R B. unfold evolves. rewrite R, B. apply evolves_refl. Qed.

Lemma evolves_rental_returned (s : Db.t) (k : RentalLog.t -> bool) d :
  evolves s
    (Db.set_rental_log
       (map (fun x => if k x then RentalLog.set_returned_date d x else x)
            (Db.rental_log s)) s).
Proof.
  split; simpl; [|apply extends_refl].
  rewrite map_update_key by reflexivity. apply extends_refl.
Qed.

Lemma evolves_book_appended (s : Db.t) (row : Book.t) :
  evolves s (Db.set_book (Db.book s ++ [row]) s).
Proof.
  split; simpl; [apply extends_refl|].
  rewrite map_app. apply extends_app.
Qed.

Lemma evolves_book_updated (s : Db.t) (k : Book.t -> bool) data :
  (forall b, Book.isbn (data b) = Book.isbn b) ->
  evolves s
    (Db.set_book (map (fun x => if k x then data x else x) (Db.book s)) s).
Proof.
  intros H. split; simpl; [apply extends_refl|].
  rewrite map_update_key by exact H. apply extends_refl.
Qed.

Lemma isbn_assign_title v b :
  Book.isbn (assign Book.set_title v b) = Book.isbn b.
Proof. now destruct v. Qed.
Lemma isbn_assign_author_id v b :
  Book.isbn (assign Book.set_author_id v b) = Book.isbn b.
Proof. now destruct v. Qed.
Lemma isbn_assign_publisher_id v b :
  Book.isbn (assign Book.set_publisher_id v b) = Book.isbn b.
Proof. now destruct v. Qed.

(** Case analysis on the queries inside a handler. *)
Ltac split_handler :=
  repeat match goal with
         | |- context [match ?x with _ => _ end] => destruct x eqn:?
         | |- context [if ?b then _ else _] => destruct b eqn:?
         end.

Ltac use_inversions :=
  repeat match goal with
         | H : match ?x with _ => _ end = Ok _ |- _ =>
             destruct x; try discriminate H
         | H : Prisma.update _ _ _ = Ok (_, _) |- _ =>
             apply update_inv in H; subst
         | H : Prisma.create _ _ _ _ = Ok (_, _) |- _ =>
             apply create_inv in H; destruct H as (? & ? & ?); subst
         end.

(** The availability query of a checkout is refused before the table is
    read, so a checkout never gets as far as its insert. *)
Lemma post_book_rental_store u b now due uuid s :
  snd (post_book_rental u b now due uuid s) = s.
Proof.
  unfold post_book_rental. destruct u; [|reflexivity].
  destruct b; [|reflexivity].
  destruct (Prisma.findUnique _ _); reflexivity.
Qed.

Lemma post_book_rental_evolves u b now due uuid s :
  evolves s (snd (post_book_rental u b now due uuid s)).
Proof. rewrite post_book_rental_store. apply evolves_refl. Qed.

Lemma put_users_return_evolves u i now s :
  evolves s (snd (put_users_return u i now s)).
Proof.
  unfold put_users_return. split_handler; simpl; use_inversions;
    try apply evolves_refl.
  apply evolves_rental_returned.
Qed.

Lemma admin_handler_evolves op s : evolves s (snd (admin_handler op s)).
Proof.
  destruct op; simpl; try apply evolves_refl.
  all: match goal with
       | |- evolves _ (snd (?h _ _ _ _ _ _ _)) => unfold h
       | |- evolves _ (snd (?h _ _ _)) => unfold h
       | |- evolves _ (snd (?h _ _)) => unfold h
       end.
  all: split_handler; simpl; use_inversions; try apply evolves_refl.
  all: try (apply evolves_other_tables; reflexivity).
  - apply evolves_book_appended.
  - apply evolves_book_updated. intros b0. simpl.
    now rewrite isbn_assign_publisher_id, isbn_assign_author_id,
      isbn_assign_title.
  - apply evolves_book_updated. reflexivity.
Qed.

Lemma app_evolves r s : evolves s (snd (app r s)).
Proof.
  destruct r; simpl; try apply evolves_refl.
  - apply post_book_rental_evolves.
  - unfold post_users_register. split_handler; simpl; use_inversions;
      try apply evolves_refl. apply evolves_other_tables; reflexivity.
  - unfold put_users_change. split_handler; simpl; use_inversions;
      try apply evolves_refl. apply evolves_other_tables; reflexivity.
  - apply put_users_return_evolves.
  - unfold admin. destruct (requireAdmin user acc s); simpl.
    + apply evolves_refl.
    + apply admin_handler_evolves.
Qed.

Lemma serve_evolves rs : forall s, evolves s (serve rs s).
Proof.
  induction rs as [|r rs IH]; intros s; simpl.
  - apply evolves_refl.
  - eapply evolves_trans; [apply app_evolves | apply IH].
Qed.

(** A lookup that reads only preserved columns finds, in the later store,
    a row with the same preserved columns. *)
Lemma find_through_key {A K} (key : A -> K) (q : K -> bool) :
  forall (l l' : list A) (r : A),
    extends (map key l) (map key l') ->
    find (fun x => q (key x)) l = Some r ->
    exists r', find (fun x => q (key x)) l' = Some r' /\ key r' = key r.
Proof.
  induction l as [|a l IH]; intros l' r [t E]; simpl; [discriminate|].
  destruct l' as [|a' l']; [discriminate|].
  simpl in E. injection E as E1 E2. simpl.
  rewrite E1. destruct (q (key a)) eqn:Q.
  - intros [= <-]. exists a'. split; [reflexivity | exact E1].
  - intros F. apply IH; [now exists t | exact F].
Qed.

Lemma evolves_rental (s s' : Db.t) (i : string) (r : RentalLog.t) :
  evolves s s' ->
  Prisma.findUnique (Prisma.rental_id i) (Db.rental_log s) = Some r ->
  exists r', Prisma.findUnique (Prisma.rental_id i) (Db.rental_log s')
             = Some r'
             /\ rentalKey r' = rentalKey r.
Proof.
  intros [E _] F.
  exact (find_through_key rentalKey
           (fun k => String.eqb (fst (fst (fst (fst k)))) i) _ _ r E F).
Qed.

Lemma evolves_book (s s' : Db.t) (i : Z) (b : Book.t) :
  evolves s s' ->
  Prisma.findUnique (Prisma.book_isbn i) (Db.book s) = Some b ->
  exists b', Prisma.findUnique (Prisma.book_isbn i) (Db.book s') = Some b'.
Proof.
  intros [_ E] F.
  destruct (find_through_key Book.isbn (fun k => k =? i) _ _ b E F)
    as (b' & F' & _).
  now exists b'.
Qed.

(* ================================================================== *)
(** ** Checking a book out *)

(** A checkout of a book that has a row ends in the [catch]: the
    availability query filters the required column by [null]. *)
Lemma post_book_rental_stored s u isbn now dueDate uuid :
  In isbn (map Book.isbn (Db.book s)) ->
  post_book_rental (Some u) (Some isbn) now dueDate uuid s
  = (status_json 500 (message "サーバーエラーが発生しました"), s).
Proof.
  intros H. unfold post_book_rental.
  destruct (Prisma.findUnique _ _) eqn:F; [reflexivity|].
  apply findUnique_book_None in F. contradiction.
Qed.



(* ================================================================== *)
(** ** The detail of a book after a return *)

(** C5: in [shelf_out] the book 9780000000001 has one rental, Alice's.
    Her return of it succeeds and writes the time of the return; the
    detail of the book then answers 500 and reports no [is_rental]. *)
Theorem return_then_detail_fails :
  put_users_return (Some alice) (Some "rental-1") 1764201600000 shelf_out
  = (status_json 200
       (JObj [("id", JStr "rental-1");
              ("returned_date", JDate 1764201600000)]), shelf_back)
  /\ Db.rental_log shelf_back
     = [RentalLog.mk "rental-1" 9780000000001 "user-a" 1764115200000
          1764720000000 (Some 1764201600000)]
  /\ get_book_detail (Some 9780000000001) shelf_back
     = next_error 500 (errorMessage ValidationFailed)
  /\ fails_with (get_book_detail (Some 9780000000001) shelf_back) Internal
  /\ payload (get_book_detail (Some 9780000000001) shelf_back) = None.
Proof. repeat split. Qed.

(* ================================================================== *)
(** ** Books that are absent, withdrawn, or were rented before *)

(** A book that has no row: both routes answer NotFound and no rental is
    created. *)
Lemma absent_book_not_found (s : Db.t) (isbn : Z) :
  ~ In isbn (map Book.isbn (Db.book s)) ->
  fails_with (get_book_detail (Some isbn) s) NotFound
  /\ forall u now dueDate uuid,
      fails_with (fst (post_book_rental (Some u) (Some isbn) now dueDate uuid s))
        NotFound
      /\ snd (post_book_rental (Some u) (Some isbn) now dueDate uuid s) = s.
Proof.
  intros H. apply findUnique_book_None in H.
  unfold get_book_detail, post_book_rental. rewrite H.
  split; [reflexivity|]. intros. split; reflexivity.
Qed.


(** C1: the book 9780000000002 of [shelf] is soft-deleted.  The lookup of
    both routes finds its row all the same, so neither answers NotFound:
    both go on as for the book that is not soft-deleted and answer 500,
    where an isbn without a row is answered 404. *)
Theorem withdrawn_book_is_not_absent :
  let gan := Book.mk 9780000000002 "Gan" "au-2" "pu-1" 1911 9 true in
  Db.book shelf
  = [Book.mk 9780000000001 "Kokoro" "au-1" "pu-1" 1914 4 false; gan]
  /\ Book.isDeleted gan = true
  /\ Prisma.findUnique (Prisma.book_isbn 9780000000002) (Db.book shelf)
     = Some gan
  /\ get_book_detail (Some 9780000000002) shelf
     = next_error 500 (errorMessage ValidationFailed)
  /\ ~ fails_with (get_book_detail (Some 9780000000002) shelf) NotFound
  /\ post_book_rental (Some bob) (Some 9780000000002)
       1764115200000 1764720000000 "rental-2" shelf
     = (status_json 500 (message "サーバーエラーが発生しました"), shelf)
  /\ ~ fails_with
         (fst (post_book_rental (Some bob) (Some 9780000000002)
                 1764115200000 1764720000000 "rental-2" shelf)) NotFound
  /\ get_book_detail (Some 9780000000002) shelf
     = get_book_detail (Some 9780000000001) shelf
  /\ fails_with (get_book_detail (Some 9780000000009) shelf) NotFound.
Proof.
  repeat split; intros H; discriminate H.
Qed.

(** The index on [book_isbn] admits one rental per book ever: an insert for
    a book that has a rental row is refused, whatever the dates of the
    row. *)
Lemma second_rental_refused (row : RentalLog.t) (tbl : list RentalLog.t) :
  In (RentalLog.book_isbn row) (map RentalLog.book_isbn tbl) ->
  exists e, Prisma.rental_log_create row tbl = Throw e.
Proof.
  intros H. unfold Prisma.rental_log_create, Prisma.create.
  destruct (RentalLog.returned_date row); [|eauto].
  assert (existsb (Prisma.rental_log_collides row) tbl = true) as ->;
    [|eauto].
  apply in_map_iff in H. destruct H as (x & E & Hx).
  apply existsb_exists. exists x. split; [exact Hx|].
  unfold Prisma.rental_log_collides. rewrite E, Z.eqb_refl.
  apply orb_true_r.
Qed.

(** C2: in [shelf_back] the only rental of book 9780000000001 has been
    returned by Alice; Bob's checkout of the book answers 500 and the
    rental table still holds that one row. *)
Theorem checkout_after_return_fails :
  Db.rental_log shelf_back
  = [RentalLog.mk "rental-1" 9780000000001 "user-a" 1764115200000
       1764720000000 (Some 1764201600000)]
  /\ post_book_rental (Some bob) (Some 9780000000001)
       1764288000000 1764288000000 "rental-2" shelf_back
     = (status_json 500 (message "サーバーエラーが発生しました"), shelf_back)
  /\ ~ succeeds
         (fst (post_book_rental (Some bob) (Some 9780000000001)
                 1764288000000 1764288000000 "rental-2" shelf_back)).
Proof.
  repeat split. intros H. discriminate H.
Qed.

(* ================================================================== *)
(** ** The dates of a rental *)

(** No sequence of requests rewrites the dates of a stored rental. *)
Lemma rental_dates_kept (s : Db.t) (rs : list request) (i : string) row :
  Prisma.findUnique (Prisma.rental_id i) (Db.rental_log s) = Some row ->
  exists row',
    Prisma.findUnique (Prisma.rental_id i) (Db.rental_log (serve rs s))
    = Some row'
    /\ RentalLog.checkout_date row' = RentalLog.checkout_date row
    /\ RentalLog.due_date row' = RentalLog.due_date row.
Proof.
  intros F.
  destruct (evolves_rental _ _ _ _ (serve_evolves rs s) F) as (row' & F' & K).
  exists row'. unfold rentalKey in K. injection K as _ _ _ K1 K2.
  repeat split; assumption.
Qed.

(* ================================================================== *)
(** ** The admin gate *)

Lemma requireAdmin_next_inv user acc s :
  requireAdmin user acc s = next -> admin_identity user s.
Proof.
  unfold requireAdmin, admin_identity.
  destruct user as [u|];
    [|destruct (accepts_json acc && negb (accepts_html acc)); discriminate].
  destruct (String.eqb (Session.id u) "") eqn:I;
    [destruct (accepts_json acc && negb (accepts_html acc)); discriminate|].
  destruct (Prisma.findUnique _ _) as [cu|] eqn:F; simpl.
  - destruct (User.is_admin cu) eqn:Adm; simpl.
    + intros _. exists u, cu. apply String.eqb_neq in I. now repeat split.
    + destruct (accepts_json acc && negb (accepts_html acc)); discriminate.
  - destruct (accepts_json acc && negb (accepts_html acc)); discriminate.
Qed.

Lemma requireAdmin_respond user acc s r :
  requireAdmin user acc s = respond r -> turned_away acc r.
Proof.
  unfold requireAdmin, turned_away.
  destruct (accepts_json acc && negb (accepts_html acc)).
  - split_handler; intros [= <-]; eauto.
  - split_handler; intros [= <-]; reflexivity.
Qed.

(** C3, as the code has it: whatever the admin operation, a caller who is
    not logged in, or whose user row is missing or lacks the admin flag,
    is turned away by the gate (a 403 answer when the request accepts JSON
    and not HTML, a redirect to the root otherwise) and the store is left
    as it was. *)
Theorem admin_gate_turns_away
    (user : option Session.user) (acc : accepts) (op : admin_op) (s : Db.t) :
  ~ admin_identity user s ->
  turned_away acc (fst (admin user acc op s))
  /\ (accepts_json acc = true -> accepts_html acc = false ->
      fails_with (fst (admin user acc op s)) Forbidden)
  /\ snd (admin user acc op s) = s.
Proof.
  intros N. unfold admin.
  destruct (requireAdmin user acc s) as [r|] eqn:G.
  - apply requireAdmin_respond in G. simpl. repeat split; [exact G|].
    intros J H. unfold turned_away in G. rewrite J, H in G.
    destruct G as [m ->]. reflexivity.
  - apply requireAdmin_next_inv in G. contradiction.
Qed.

Lemma admin_gate_turns_away_witness :
  turned_away jsonOnly
    (fst (admin (Some alice) jsonOnly (DeleteAuthor (Some "au-1")) shelf))
  /\ (accepts_json jsonOnly = true -> accepts_html jsonOnly = false ->
      fails_with
        (fst (admin (Some alice) jsonOnly (DeleteAuthor (Some "au-1")) shelf))
        Forbidden)
  /\ snd (admin (Some alice) jsonOnly (DeleteAuthor (Some "au-1")) shelf)
     = shelf.
Proof.
  apply (admin_gate_turns_away (Some alice) jsonOnly
           (DeleteAuthor (Some "au-1")) shelf).
  intros (u & row & E & _ & F & A). injection E as <-.
  simpl in F. injection F as <-. discriminate A.
Defined.

(** C3, as it is worded, fails twice: Carol's user row is soft-deleted and
    still carries the admin flag, and her request passes the gate and
    deletes an author; a caller who is not logged in and accepts HTML is
    redirected, which is not a Forbidden answer. *)
Lemma admin_gate_counterexample :
  (~ live_admin_identity (Some carol) shelf
   /\ admin (Some carol) jsonOnly (DeleteAuthor (Some "au-1")) shelf
      = (status_json 200 (message "削除しました"),
         Db.set_author
           [Author.mk "au-1" "Natsume Soseki" true;
            Author.mk "au-2" "Mori Ogai" true] shelf)
   /\ snd (admin (Some carol) jsonOnly (DeleteAuthor (Some "au-1")) shelf)
      <> shelf)
  /\
  (~ live_admin_identity None shelf
   /\ admin None browser ListAuthors shelf = (redirect "/", shelf)
   /\ ~ fails_with (fst (admin None browser ListAuthors shelf)) Forbidden).
Proof.
  split; repeat split.
  - intros (u & row & E & _ & F & _ & D). injection E as <-.
    simpl in F. injection F as <-. discriminate D.
  - intros H. discriminate H.
  - intros (u & row & E & _). discriminate E.
  - intros H. discriminate H.
Qed.

(* ================================================================== *)
(** ** Pages of the list *)

Lemma ceilDiv_spec (a b : Z) :
  0 < b -> b * (ceilDiv a b - 1) < a <= b * ceilDiv a b.
Proof.
  intros Hb. unfold ceilDiv.
  pose proof (Z.div_mod (- a) b ltac:(lia)) as E.
  pose proof (Z.mod_pos_bound (- a) b Hb) as B.
  nia.
Qed.

Lemma totalCount_nonneg (s : Db.t) : 0 <= totalCount s.
Proof. unfold totalCount, Prisma.count. lia. Qed.

Lemma lastPage_max (s : Db.t) :
  lastPage s = Z.max 1 (ceilDiv (totalCount s) ITEMS_PER_PAGE).
Proof.
  unfold lastPage.
  pose proof (ceilDiv_spec (totalCount s) ITEMS_PER_PAGE eq_refl) as C.
  pose proof (totalCount_nonneg s) as T. unfold ITEMS_PER_PAGE in *.
  destruct (ceilDiv (totalCount s) 5 =? 0) eqn:Z0.
  - apply Z.eqb_eq in Z0. lia.
  - apply Z.eqb_neq in Z0. lia.
Qed.

Lemma lastPage_pos (s : Db.t) : 1 <= lastPage s.
Proof. rewrite lastPage_max. lia. Qed.

Lemma currentPage_clamped (page : option string) (s : Db.t) :
  currentPage page s
  = match pageNumber page with
    | Some n => Z.max 1 (Z.min (lastPage s) n)
    | None => 1
    end.
Proof.
  unfold currentPage, pageNumber. pose proof (lastPage_pos s) as L.
  destruct (parseInt (orElse page "1")) as [n|].
  - destruct (n <? 1) eqn:N1.
    + apply Z.ltb_lt in N1.
      destruct (1 >? lastPage s) eqn:G; [|lia].
      apply Z.gtb_lt in G. lia.
    + apply Z.ltb_ge in N1.
      destruct (n >? lastPage s) eqn:G.
      * apply Z.gtb_lt in G. lia.
      * rewrite Z.gtb_ltb in G. apply Z.ltb_ge in G. lia.
  - destruct (1 >? lastPage s) eqn:G; [|reflexivity].
    apply Z.gtb_lt in G. lia.
Qed.

(** The response depends on the parameter through the page number only. *)
Lemma handleListRequest_by_page (p q : option string) (s : Db.t) :
  currentPage p s = currentPage q s ->
  handleListRequest p s = handleListRequest q s.
Proof.
  intros E. unfold handleListRequest, books, booksRaw. now rewrite E.
Qed.

(** C8: the response carries, for both kinds of client, the page number
    that is served, the last page and the books of that page, which are
    the five (or fewer) books at that place of the list of the books that
    are not soft-deleted, newest first.  The last page is the number of
    pages of five such books, and 1 for an empty catalog; the page served
    is the requested number clamped to the range from 1 to the last page;
    a request for a page below 1, or with no number in the parameter, is
    answered as page 1, and a request for a page after the last as the
    last page. *)
Theorem listBooks_clamps_page (s : Db.t) (p : option string) :
  handleListRequest p s
  = format
      (render "book/list"
         (JObj [("title", JStr "書籍一覧");
                ("data",
                 JObj [("current", JNum (currentPage p s));
                       ("last_page", JNum (lastPage s));
                       ("books", JArr (books p s))])]))
      (status_json 200
         (JObj [("current", JNum (currentPage p s));
                ("last_page", JNum (lastPage s));
                ("books", JArr (books p s))]))
  /\ map (field "isbn") (books p s)
     = map (fun b => Some (JStr (toString (Book.isbn b)))) (booksRaw p s)
  /\ booksRaw p s
     = firstn 5
         (skipn (Z.to_nat ((currentPage p s - 1) * ITEMS_PER_PAGE))
            (catalog s))
  /\ totalCount s = Z.of_nat (List.length (filter notDeleted (Db.book s)))
  /\ lastPage s = Z.max 1 (ceilDiv (totalCount s) ITEMS_PER_PAGE)
  /\ (ITEMS_PER_PAGE * (ceilDiv (totalCount s) ITEMS_PER_PAGE - 1)
      < totalCount s
      <= ITEMS_PER_PAGE * ceilDiv (totalCount s) ITEMS_PER_PAGE)
  /\ 1 <= currentPage p s <= lastPage s
  /\ (forall n, pageNumber p = Some n ->
                currentPage p s = Z.max 1 (Z.min (lastPage s) n))
  /\ (pageNumber p = None \/ (exists n, pageNumber p = Some n /\ n <= 0) ->
      handleListRequest p s = handleListRequest (Some "1") s)
  /\ (forall n q,
         pageNumber p = Some n -> lastPage s < n ->
         pageNumber (Some q) = Some (lastPage s) ->
         handleListRequest p s = handleListRequest (Some q) s).
Proof.
  pose proof (lastPage_pos s) as L.
  split; [reflexivity|].
  split; [unfold books; rewrite map_map; reflexivity|].
  split; [reflexivity|]. split; [reflexivity|].
  split; [apply lastPage_max|].
  split; [apply ceilDiv_spec; reflexivity|].
  split; [rewrite currentPage_clamped; destruct (pageNumber p); lia|].
  split; [intros n E; now rewrite currentPage_clamped, E|].
  split.
  - intros H. apply handleListRequest_by_page.
    rewrite !currentPage_clamped.
    change (pageNumber (Some "1")) with (Some 1).
    destruct H as [->|(n & -> & Hn)]; lia.
  - intros n q E G Eq. apply handleListRequest_by_page.
    rewrite !currentPage_clamped, E, Eq. lia.
Qed.

Lemma listBooks_clamps_page_witness :
  lastPage catalog12 = 3
  /\ map (field "isbn") (listed "books" (handleListRequest (Some "4") catalog12))
     = [Some (JStr "9780000000002"); Some (JStr "9780000000001")]
  /\ handleListRequest (Some "0") catalog12
     = handleListRequest (Some "1") catalog12
  /\ handleListRequest (Some "abc") catalog12
     = handleListRequest (Some "1") catalog12
  /\ handleListRequest (Some "4") catalog12
     = handleListRequest (Some "3") catalog12.
Proof.
  split; [reflexivity|]. split; [|split; [|split]].
  - destruct (listBooks_clamps_page catalog12 (Some "4")) as (R & I & _).
    rewrite R. exact I.
  - destruct (listBooks_clamps_page catalog12 (Some "0"))
      as (_ & _ & _ & _ & _ & _ & _ & _ & H & _).
    apply H. right. exists 0. split; [reflexivity | lia].
  - destruct (listBooks_clamps_page catalog12 (Some "abc"))
      as (_ & _ & _ & _ & _ & _ & _ & _ & H & _).
    apply H. left. reflexivity.
  - destruct (listBooks_clamps_page catalog12 (Some "4"))
      as (_ & _ & _ & _ & _ & _ & _ & _ & _ & H).
    apply (H 4 "3"); [reflexivity | vm_compute; reflexivity | reflexivity].
Defined.

(* ================================================================== *)
(** ** Search without a keyword *)

Lemma contains_empty (name : string) : contains "" name = true.
Proof. destruct name; reflexivity. Qed.

Lemma orElse_empty (keyword : option string) :
  keyword = None \/ keyword = Some "" -> orElse keyword "" = "".
Proof. intros [->| ->]; reflexivity. Qed.

(** C10, as the code has it: for a request whose body was parsed, with no
    keyword in it or an empty one, the two searches answer the id and the
    name, and nothing else, of every row that is not soft-deleted, in the
    order of the table; a request without a parsed body is answered
    500. *)
Theorem search_without_keyword (s : Db.t) :
  (forall keyword : option string,
      keyword = None \/ keyword = Some "" ->
      search_author (Some keyword) s
      = status_json 200
          (JObj [("authors",
                  JArr (map (fun a => idName (Author.id a) (Author.name a))
                          (filter (fun a => negb (Author.isDeleted a))
                             (Db.author s))))])
      /\ search_publisher (Some keyword) s
         = status_json 200
             (JObj [("publishers",
                     JArr (map (fun p => idName (Publisher.id p)
                                           (Publisher.name p))
                             (filter (fun p => negb (Publisher.isDeleted p))
                                (Db.publisher s))))]))
  /\ search_author None s = status_json 500 (message "Error")
  /\ search_publisher None s = status_json 500 (message "Error").
Proof.
  split; [|split; reflexivity].
  intros keyword K.
  unfold search_author, search_publisher, get_book_search_author,
    get_book_search_publisher.
  rewrite (orElse_empty _ K). unfold Prisma.findMany, idName.
  rewrite (filter_ext _ (fun a => negb (Author.isDeleted a)))
    by (intros a; rewrite contains_empty; apply andb_true_r).
  rewrite (filter_ext _ (fun p => negb (Publisher.isDeleted p)))
    by (intros p; rewrite contains_empty; apply andb_true_r).
  split; reflexivity.
Qed.

Lemma search_without_keyword_witness :
  search_author (Some None) shelf
  = status_json 200
      (JObj [("authors", JArr [idName "au-1" "Natsume Soseki"])])
  /\ search_publisher (Some (Some "")) shelf
     = status_json 200 (JObj [("publishers", JArr [idName "pu-1" "Iwanami"])]).
Proof.
  split.
  - apply (proj1 (proj1 (search_without_keyword shelf) None
                    (or_introl eq_refl))).
  - apply (proj2 (proj1 (search_without_keyword shelf) (Some "")
                    (or_intror eq_refl))).
Defined.

(** C10, as it is worded, fails for a request that carries no body, the
    plainest way to call a search without a keyword: reading the keyword
    throws, and the answer is 500 instead of the rows. *)
Lemma search_without_body_counterexample :
  search_author None shelf = status_json 500 (message "Error")
  /\ fails_with (search_author None shelf) Internal
  /\ search_author None shelf
     <> status_json 200
          (JObj [("authors", JArr [idName "au-1" "Natsume Soseki"])])
  /\ search_publisher None shelf = status_json 500 (message "Error")
  /\ search_publisher None shelf
     <> status_json 200
          (JObj [("publishers", JArr [idName "pu-1" "Iwanami"])]).
Proof.
  repeat split; intros H; discriminate H.
Qed.

(* ================================================================== *)
(** ** Consistent stores *)

Lemma NoDup_map_snoc {A K} (key : A -> K) (l : list A) (row : A) :
  NoDup (map key l) -> ~ In (key row) (map key l) ->
  NoDup (map key (l ++ [row])).
Proof.
  intros ND NI. rewrite map_app. simpl.
  apply NoDup_app; [exact ND | repeat constructor; intros [] | ].
  intros k Hk [<-|[]]. contradiction.
Qed.

Lemma no_collision {A K} (c : A -> A -> bool) (key : A -> K) (row : A)
    (l : list A) :
  (forall x, key row = key x -> c row x = true) ->
  existsb (c row) l = false -> ~ In (key row) (map key l).
Proof.
  intros Hc E Hin. apply in_map_iff in Hin. destruct Hin as (x & Hx & Hin).
  assert (existsb (c row) l = true); [|congruence].
  apply existsb_exists. exists x. split; [exact Hin|]. now apply Hc.
Qed.

Lemma NoDup_update {A K} (key : A -> K) (k : A -> bool) (data : A -> A)
    (l : list A) :
  (forall x, key (data x) = key x) -> NoDup (map key l) ->
  NoDup (map key (map (fun x => if k x then data x else x) l)).
Proof. intros H ND. now rewrite map_update_key. Qed.

Lemma consistent_empty : consistent Db.empty.
Proof.
  split; [constructor; simpl; constructor|]. intros r [].
Qed.

Lemma rentals_have_books_ext (s s' : Db.t) :
  map RentalLog.book_isbn (Db.rental_log s')
  = map RentalLog.book_isbn (Db.rental_log s) ->
  map Book.isbn (Db.book s') = map Book.isbn (Db.book s) ->
  rentals_have_books s -> rentals_have_books s'.
Proof.
  unfold rentals_have_books. intros R B H r Hr. rewrite B.
  apply (in_map RentalLog.book_isbn) in Hr. rewrite R in Hr.
  apply in_map_iff in Hr. destruct Hr as (r0 & <- & Hr0). now apply H.
Qed.

Ltac schema_step H :=
  destruct H as [[U1 U2 A1 P1 B1 R1 R2] RB]; split;
  [ constructor; simpl; try assumption
  | try (apply (rentals_have_books_ext _ _ eq_refl eq_refl RB)) ].

Lemma post_book_rental_consistent u b now due uuid s :
  consistent s -> consistent (snd (post_book_rental u b now due uuid s)).
Proof. now rewrite post_book_rental_store. Qed.

Lemma put_users_return_consistent u i now s :
  consistent s -> consistent (snd (put_users_return u i now s)).
Proof.
  intros H. unfold put_users_return.
  split_handler; simpl; try exact H. use_inversions.
  schema_step H.
  - now apply NoDup_update.
  - now apply NoDup_update.
  - apply (rentals_have_books_ext s); [|reflexivity|exact RB].
    simpl. now apply map_update_key.
Qed.

Lemma post_users_register_consistent n e p h uuid s :
  consistent s -> consistent (snd (post_users_register n e p h uuid s)).
Proof.
  intros H. unfold post_users_register.
  split_handler; simpl; try exact H. use_inversions.
  schema_step H.
  - apply NoDup_map_snoc; [exact U1|].
    eapply no_collision; [|eassumption].
    intros x E. unfold Prisma.user_collides. rewrite E.
    now rewrite String.eqb_refl.
  - apply NoDup_map_snoc; [exact U2|].
    eapply no_collision; [|eassumption].
    intros x E. unfold Prisma.user_collides. rewrite E.
    rewrite String.eqb_refl. apply orb_true_r.
Qed.

Lemma put_users_change_consistent u n s :
  consistent s -> consistent (snd (put_users_change u n s)).
Proof.
  intros H. unfold put_users_change.
  split_handler; simpl; try exact H. use_inversions.
  schema_step H; now apply NoDup_update.
Qed.

Lemma admin_handler_consistent op s :
  consistent s -> consistent (snd (admin_handler op s)).
Proof.
  intros H. destruct op; simpl; try exact H.
  all: match goal with
       | |- consistent (snd (?h _ _ _ _ _ _ _)) => unfold h
       | |- consistent (snd (?h _ _ _)) => unfold h
       | |- consistent (snd (?h _ _)) => unfold h
       end.
  all: split_handler; simpl; try exact H; use_inversions.
  all: schema_step H.
  all: try (apply NoDup_update; [|assumption]; intros x;
            try reflexivity;
            match goal with
            | |- _ (assign _ ?v _) = _ => now destruct v
            | _ => idtac
            end).
  - apply NoDup_map_snoc; [exact A1|].
    eapply no_collision; [|eassumption].
    intros x E. unfold Prisma.author_collides. rewrite E.
    apply String.eqb_refl.
  - apply NoDup_map_snoc; [exact P1|].
    eapply no_collision; [|eassumption].
    intros x E. unfold Prisma.publisher_collides. rewrite E.
    apply String.eqb_refl.
  - apply NoDup_map_snoc; [exact B1|].
    eapply no_collision; [|eassumption].
    intros x E. unfold Prisma.book_collides. rewrite E.
    apply Z.eqb_refl.
  - intros r Hr. simpl in Hr |- *. rewrite map_app. apply in_or_app. left.
    now apply RB.
  - simpl. now rewrite isbn_assign_publisher_id, isbn_assign_author_id,
      isbn_assign_title.
  - apply (rentals_have_books_ext s); [reflexivity| |exact RB].
    simpl. apply map_update_key. intros x. simpl.
    now rewrite isbn_assign_publisher_id, isbn_assign_author_id,
      isbn_assign_title.
  - apply (rentals_have_books_ext s); [reflexivity| |exact RB].
    simpl. now apply map_update_key.
Qed.

Lemma app_consistent r s : consistent s -> consistent (snd (app r s)).
Proof.
  intros H. destruct r; simpl; try exact H.
  - now apply post_book_rental_consistent.
  - now apply post_users_register_consistent.
  - now apply put_users_change_consistent.
  - now apply put_users_return_consistent.
  - unfold admin. destruct (requireAdmin user acc s); simpl; [exact H|].
    now apply admin_handler_consistent.
Qed.

(** The routes keep a store consistent. *)
Lemma serve_consistent (rs : list request) :
  forall s, consistent s -> consistent (serve rs s).
Proof.
  induction rs as [|r rs IH]; intros s H; simpl; [exact H|].
  apply IH. now apply app_consistent.
Qed.

Lemma shelf_consistent : consistent shelf.
Proof.
  split.
  - constructor; simpl; repeat constructor; simpl; intuition discriminate.
  - intros r [].
Qed.

(* ================================================================== *)
(** ** Decimal strings and [parseInt] *)

Lemma bytes_cons (c : ascii) (s : string) :
  bytes (String c s) = N_of_ascii c :: bytes s.
Proof. reflexivity. Qed.

Lemma digits_of_uint (d : Decimal.uint) :
  digits (bytes (NilEmpty.string_of_uint d))
  = bytes (NilEmpty.string_of_uint d).
Proof.
  induction d; simpl NilEmpty.string_of_uint; rewrite ?bytes_cons;
    [reflexivity|..]; simpl; now rewrite IHd.
Qed.

Lemma value_of_uint_acc (d : Decimal.uint) :
  forall acc : positive,
    fold_left (fun a c => a * 10 + (Z.of_N c - 48))
      (bytes (NilEmpty.string_of_uint d)) (Z.pos acc)
    = Z.pos (Pos.of_uint_acc d acc).
Proof.
  induction d; intros acc; simpl NilEmpty.string_of_uint;
    rewrite ?bytes_cons; [reflexivity|..];
    cbn [fold_left Pos.of_uint_acc]; rewrite <- IHd; f_equal;
    cbn [N_of_ascii N_of_digits]; lia.
Qed.

Lemma value_of_uint (d : Decimal.uint) :
  digitsValue (bytes (NilEmpty.string_of_uint d)) = Z.of_N (Pos.of_uint d).
Proof.
  unfold digitsValue.
  induction d; simpl NilEmpty.string_of_uint; rewrite ?bytes_cons;
    [reflexivity|..]; cbn [fold_left Pos.of_uint].
  - exact IHd.
  - exact (value_of_uint_acc d 1).
  - exact (value_of_uint_acc d 2).
  - exact (value_of_uint_acc d 3).
  - exact (value_of_uint_acc d 4).
  - exact (value_of_uint_acc d 5).
  - exact (value_of_uint_acc d 6).
  - exact (value_of_uint_acc d 7).
  - exact (value_of_uint_acc d 8).
  - exact (value_of_uint_acc d 9).
Qed.

(** Evaluation of the codes of literal characters. *)
Ltac eval_codes :=
  repeat match goal with
         | |- context [N_of_ascii ?c] =>
             let v := eval vm_compute in (N_of_ascii c) in
             change (N_of_ascii c) with v
         | H : context [N_of_ascii ?c] |- _ =>
             let v := eval vm_compute in (N_of_ascii c) in
             change (N_of_ascii c) with v in H
         end.

Lemma parseInt_of_uint (d : Decimal.uint) :
  d <> Decimal.Nil ->
  parseInt (NilEmpty.string_of_uint d)
  = Some (digitsValue (bytes (NilEmpty.string_of_uint d)))
  /\ parseInt (String "-" (NilEmpty.string_of_uint d))
     = Some (- digitsValue (bytes (NilEmpty.string_of_uint d))).
Proof.
  intros N. pose proof (digits_of_uint d) as D.
  destruct d; [contradiction|..];
    simpl NilEmpty.string_of_uint in *; unfold parseInt;
    rewrite ?bytes_cons in *; eval_codes;
    cbn [trimStart N.leb N.eqb N.compare Pos.compare Pos.compare_cont
           Pos.eqb andb orb];
    rewrite D; split; f_equal; lia.
Qed.

Lemma to_uint_not_Nil (p : positive) : Pos.to_uint p <> Decimal.Nil.
Proof.
  intros E. pose proof (DecimalPos.Unsigned.of_to p) as H.
  rewrite E in H. discriminate H.
Qed.

Lemma string_of_nonempty_uint (d : Decimal.uint) :
  d <> Decimal.Nil ->
  NilZero.string_of_uint d = NilEmpty.string_of_uint d.
Proof. destruct d; [contradiction | reflexivity..]. Qed.

(** The decimal string of a page number is read back as that number. *)
Lemma parseInt_toString (z : Z) :
  parseInt (toString z) = Some z /\ pageNumber (Some (toString z)) = Some z.
Proof.
  assert (P : parseInt (toString z) = Some z).
  { unfold toString. destruct z as [|p|p]; [reflexivity|..];
      simpl Z.to_int; unfold NilZero.string_of_int;
      rewrite (string_of_nonempty_uint _ (to_uint_not_Nil p));
      destruct (parseInt_of_uint _ (to_uint_not_Nil p)) as [P1 P2];
      [rewrite P1 | rewrite P2];
      now rewrite value_of_uint, DecimalPos.Unsigned.of_to. }
  split; [exact P|].
  unfold pageNumber. destruct (toString z) eqn:E; [discriminate P|].
  exact P.
Qed.

(* ================================================================== *)
(** ** Substrings and the searches *)




(* ================================================================== *)
(** ** Ordered queries *)

Section OrderBy.
Context {A : Type}.
Variable before : A -> A -> bool.

Lemma insertBy_perm (x : A) (l : list A) :
  Permutation (insertBy before x l) (x :: l).
Proof.
  induction l as [|y l IH]; simpl; [reflexivity|].
  destruct (before y x); [|reflexivity].
  rewrite IH. apply perm_swap.
Qed.

Lemma orderBy_perm (l : list A) : Permutation (orderBy before l) l.
Proof.
  induction l as [|x l IH]; simpl; [reflexivity|].
  rewrite insertBy_perm. now constructor.
Qed.

Lemma orderBy_In (l : list A) (x : A) : In x (orderBy before l) <-> In x l.
Proof.
  split; apply Permutation_in;
    [apply orderBy_perm | apply Permutation_sym, orderBy_perm].
Qed.

Lemma orderBy_length (l : list A) :
  List.length (orderBy before l) = List.length l.
Proof. apply Permutation_length, orderBy_perm. Qed.

Hypothesis before_asym : forall x y, before x y = true -> before y x = false.
Hypothesis before_negtrans :
  forall x y z, before y x = false -> before z y = false ->
                before z x = false.

Lemma insertBy_inOrder (x : A) (l : list A) :
  inOrder before l -> inOrder before (insertBy before x l).
Proof.
  unfold inOrder. induction l as [|y l IH]; simpl; intros S.
  - repeat constructor.
  - inversion S as [|? ? S' F]; subst. destruct (before y x) eqn:B.
    + constructor; [now apply IH|].
      apply (Permutation_Forall (Permutation_sym (insertBy_perm x l))).
      constructor; [now apply before_asym | exact F].
    + constructor; [exact S|]. constructor; [exact B|].
      apply Forall_forall. intros z Hz.
      rewrite Forall_forall in F. specialize (F z Hz).
      now apply (before_negtrans x y z).
Qed.

Lemma orderBy_inOrder (l : list A) : inOrder before (orderBy before l).
Proof.
  induction l as [|x l IH]; simpl; [constructor|].
  now apply insertBy_inOrder.
Qed.

Lemma inOrder_skipn (n : nat) (l : list A) :
  inOrder before l -> inOrder before (skipn n l).
Proof.
  unfold inOrder. revert l. induction n as [|n IH]; intros l S; [exact S|].
  destruct l as [|x l]; [exact S|]. simpl. apply IH.
  now inversion S.
Qed.

Lemma inOrder_firstn (n : nat) (l : list A) :
  inOrder before l -> inOrder before (firstn n l).
Proof.
  unfold inOrder. revert l. induction n as [|n IH]; intros l S;
    [constructor|].
  destruct l as [|x l]; [constructor|]. simpl.
  inversion S as [|? ? S' F]; subst. constructor; [now apply IH|].
  apply Forall_forall. intros z Hz. rewrite Forall_forall in F. apply F.
  revert Hz. clear. revert l. induction n as [|n IH]; intros l; [intros []|].
  destruct l as [|y l]; [intros []|]. simpl. intros [->|H]; [now left|].
  right. now apply IH.
Qed.

End OrderBy.

Lemma newerFirst_asym (x y : Book.t) :
  newerFirst x y = true -> newerFirst y x = false.
Proof.
  unfold newerFirst. intros H.
  apply orb_true_iff in H. apply orb_false_iff.
  rewrite andb_false_iff, !Z.gtb_ltb, !Z.ltb_ge, Z.eqb_neq.
  destruct H as [H|H].
  - rewrite Z.gtb_ltb in H. apply Z.ltb_lt in H. lia.
  - apply andb_true_iff in H. destruct H as [H1 H2].
    apply Z.eqb_eq in H1. rewrite Z.gtb_ltb in H2. apply Z.ltb_lt in H2. lia.
Qed.

Lemma newerFirst_false (y x : Book.t) :
  newerFirst y x = false <->
  Book.publication_year y < Book.publication_year x
  \/ (Book.publication_year y = Book.publication_year x
      /\ Book.publication_month y <= Book.publication_month x).
Proof.
  unfold newerFirst.
  rewrite orb_false_iff, andb_false_iff, !Z.gtb_ltb, !Z.ltb_ge, Z.eqb_neq.
  lia.
Qed.

Lemma newerFirst_negtrans (x y z : Book.t) :
  newerFirst y x = false -> newerFirst z y = false ->
  newerFirst z x = false.
Proof. rewrite !newerFirst_false. lia. Qed.

Lemma laterFirst_asym (x y : RentalLog.t) :
  laterFirst x y = true -> laterFirst y x = false.
Proof. unfold laterFirst. rewrite !Z.gtb_ltb, Z.ltb_lt, Z.ltb_ge. lia. Qed.

Lemma laterFirst_negtrans (x y z : RentalLog.t) :
  laterFirst y x = false -> laterFirst z y = false ->
  laterFirst z x = false.
Proof. unfold laterFirst. rewrite !Z.gtb_ltb, !Z.ltb_ge. lia. Qed.

(* ================================================================== *)
(** ** The pages of the catalog *)

Lemma catalog_length (s : Db.t) :
  Z.of_nat (List.length (catalog s)) = totalCount s.
Proof.
  unfold catalog, totalCount, Prisma.count, Prisma.findMany.
  now rewrite orderBy_length.
Qed.

Lemma booksRaw_catalog (page : option string) (s : Db.t) :
  booksRaw page s
  = firstn 5 (skipn (Z.to_nat ((currentPage page s - 1) * 5)) (catalog s)).
Proof. reflexivity. Qed.

Lemma In_firstn_skipn {A} (n m : nat) (l : list A) (x : A) :
  In x (firstn n (skipn m l)) -> In x l.
Proof.
  intros H. rewrite <- (firstn_skipn m l). apply in_or_app. right.
  rewrite <- (firstn_skipn n (skipn m l)). apply in_or_app. now left.
Qed.

(** X4: every page of the list holds at most five books, exactly five
    before the last page; all of them are stored rows that are not
    soft-deleted, and they are in the order newest year first, then newest
    month first. *)
Theorem list_page_contents (s : Db.t) (page : option string) :
  (List.length (booksRaw page s) <= 5)%nat
  /\ (currentPage page s < lastPage s ->
      List.length (booksRaw page s) = 5%nat)
  /\ (forall b, In b (booksRaw page s) ->
                In b (Db.book s) /\ Book.isDeleted b = false)
  /\ inOrder newerFirst (booksRaw page s)
  /\ List.length (books page s) = List.length (booksRaw page s).
Proof.
  rewrite booksRaw_catalog.
  split; [apply firstn_le_length|].
  split; [|split; [|split]].
  - intros Lt. rewrite length_firstn, length_skipn.
    pose proof (catalog_length s) as L.
    pose proof (lastPage_max s) as M.
    pose proof (ceilDiv_spec (totalCount s) ITEMS_PER_PAGE eq_refl) as C.
    assert (1 <= currentPage page s)
      by (rewrite currentPage_clamped; destruct (pageNumber page); lia).
    unfold ITEMS_PER_PAGE in *. lia.
  - intros b Hb. apply In_firstn_skipn in Hb.
    apply orderBy_In in Hb. unfold Prisma.findMany in Hb.
    apply filter_In in Hb. destruct Hb as [Hin Hd]. split; [exact Hin|].
    unfold notDeleted in Hd. now apply negb_true_iff in Hd.
  - apply inOrder_firstn, inOrder_skipn, orderBy_inOrder.
    + exact newerFirst_asym.
    + exact newerFirst_negtrans.
  - unfold books. now rewrite length_map, booksRaw_catalog.
Qed.

Lemma list_page_contents_witness :
  List.length (booksRaw (Some "1") catalog12) = 5%nat
  /\ forall b, In b (booksRaw (Some "3") catalog12) ->
               In b (Db.book catalog12) /\ Book.isDeleted b = false.
Proof.
  split.
  - apply (proj1 (proj2 (list_page_contents catalog12 (Some "1")))).
    reflexivity.
  - apply (proj1 (proj2 (proj2 (list_page_contents catalog12 (Some "3"))))).
Defined.

Lemma chunks_concat {A} (n : nat) :
  forall l : list A,
    (List.length l <= 5 * n)%nat ->
    List.concat (map (fun k => firstn 5 (skipn (5 * k) l)) (seq 0 n)) = l.
Proof.
  induction n as [|n IH]; intros l Hl.
  - destruct l; [reflexivity | simpl in Hl; lia].
  - change (seq 0 (S n)) with (0%nat :: seq 1 n).
    rewrite <- seq_shift, map_cons, map_map, concat_cons.
    rewrite (map_ext _ (fun k => firstn 5 (skipn (5 * k) (skipn 5 l)))).
    + rewrite IH by (rewrite length_skipn; lia).
      exact (firstn_skipn 5 l).
    + intros k. rewrite skipn_skipn. do 2 f_equal. lia.
Qed.

Lemma booksRaw_of_number (s : Db.t) (k : nat) :
  (1 <= k <= Z.to_nat (lastPage s))%nat ->
  booksRaw (Some (toString (Z.of_nat k))) s
  = firstn 5 (skipn (5 * (k - 1)) (catalog s)).
Proof.
  intros Hk. rewrite booksRaw_catalog, currentPage_clamped.
  rewrite (proj2 (parseInt_toString (Z.of_nat k))).
  do 2 f_equal. lia.
Qed.

(** X5: the pages 1 to [lastPage], requested by their decimal numbers and
    put one after the other, are the whole list of the books that are not
    soft-deleted, newest first: no such book is missing from the pages and
    none is listed twice. *)
Theorem pages_cover_catalog (s : Db.t) :
  List.concat (map (fun n => booksRaw (Some (toString n)) s) (pageNumbers s))
  = catalog s
  /\ Permutation (catalog s) (filter notDeleted (Db.book s)).
Proof.
  split; [|apply orderBy_perm].
  unfold pageNumbers. rewrite map_map.
  rewrite (map_ext_in _
             (fun k => firstn 5 (skipn (5 * (k - 1)) (catalog s)))).
  - rewrite <- seq_shift, map_map.
    rewrite (map_ext _ (fun k => firstn 5 (skipn (5 * k) (catalog s))))
      by (intros k; do 2 f_equal; lia).
    apply chunks_concat.
    pose proof (catalog_length s) as L.
    pose proof (lastPage_max s) as M.
    pose proof (ceilDiv_spec (totalCount s) ITEMS_PER_PAGE eq_refl) as C.
    unfold ITEMS_PER_PAGE in *. lia.
  - intros k Hk. apply in_seq in Hk. apply booksRaw_of_number. lia.
Qed.

(* ================================================================== *)
(** ** The outcomes of a checkout and of a return *)

Lemma post_book_rental_request_store user body now dueDate uuid s :
  snd (post_book_rental_request user body now dueDate uuid s) = s.
Proof.
  destruct body as [book_id|]; simpl; [apply post_book_rental_store|].
  now destruct user.
Qed.

Lemma post_book_rental_codes user book_id now dueDate uuid s :
  In (status_code (fst (post_book_rental user book_id now dueDate uuid s)))
     [Some 401; Some 400; Some 404; Some 500].
Proof.
  unfold post_book_rental. destruct user; [|simpl; tauto].
  destruct book_id; [|simpl; tauto].
  destruct (Prisma.findUnique _ _); simpl; tauto.
Qed.

(** X6: the outcome of a checkout, read off the store.  Without a login
    it is 401; for a logged-in user it is 500 when the request has no
    parsed body, 400 for an isbn that does not convert, 404 when no book
    row has the isbn, and 500 whenever a book row has it, because the
    availability query filters the required column [returned_date] by
    [null].  So no request is answered 200 or 409, and the store is never
    changed. *)
Theorem checkout_outcomes
    (s : Db.t) (u : Session.user) (isbn now dueDate : Z) (uuid : string) :
  (forall body, post_book_rental_request None body now dueDate uuid s
                = (status_json 401 (message "ログインしてください"), s))
  /\ post_book_rental_request (Some u) None now dueDate uuid s
     = (status_json 500 (message "サーバーエラーが発生しました"), s)
  /\ post_book_rental_request (Some u) (Some None) now dueDate uuid s
     = (status_json 400 (message "ISBNの形式が正しくありません"), s)
  /\ (~ In isbn (map Book.isbn (Db.book s)) ->
      post_book_rental_request (Some u) (Some (Some isbn)) now dueDate uuid s
      = (status_json 404 (message "書籍が存在しません"), s))
  /\ (In isbn (map Book.isbn (Db.book s)) ->
      post_book_rental_request (Some u) (Some (Some isbn)) now dueDate uuid s
      = (status_json 500 (message "サーバーエラーが発生しました"), s))
  /\ (forall user body,
         snd (post_book_rental_request user body now dueDate uuid s) = s
         /\ ~ succeeds
               (fst (post_book_rental_request user body now dueDate uuid s))
         /\ ~ fails_with
               (fst (post_book_rental_request user body now dueDate uuid s))
               Conflict).
Proof.
  split; [intros [b|]; reflexivity|]. split; [reflexivity|].
  split; [reflexivity|]. split; [|split].
  - intros H. apply findUnique_book_None in H. simpl.
    unfold post_book_rental. now rewrite H.
  - intros H. exact (post_book_rental_stored s u isbn now dueDate uuid H).
  - intros user body. split; [apply post_book_rental_request_store|].
    unfold succeeds, fails_with.
    destruct body as [book_id|]; simpl.
    + pose proof (post_book_rental_codes user book_id now dueDate uuid s)
        as C.
      split; intros E; rewrite E in C; simpl in C;
        intuition discriminate.
    + destruct user; simpl; split; discriminate.
Qed.

Lemma checkout_outcomes_witness :
  post_book_rental_request (Some bob) (Some (Some 9780000000009)) 5 5
    "rental-2" shelf_back
  = (status_json 404 (message "書籍が存在しません"), shelf_back)
  /\ post_book_rental_request (Some alice) (Some (Some 9780000000001)) 5 6
       "rental-1" shelf
     = (status_json 500 (message "サーバーエラーが発生しました"), shelf).
Proof.
  split.
  - apply (proj1 (proj2 (proj2 (proj2
             (checkout_outcomes shelf_back bob 9780000000009 5 5
                "rental-2"))))).
    simpl. intuition discriminate.
  - apply (proj1 (proj2 (proj2 (proj2 (proj2
             (checkout_outcomes shelf alice 9780000000001 5 6
                "rental-1")))))).
    simpl. now left.
Defined.

(** X7: whatever it answers, a return leaves the other four tables alone,
    keeps every rental row in place with its id, book, user, checkout and
    due dates, and leaves every rental with another id exactly as it
    was; without a login it answers 401 and without an id 500. *)
Theorem return_touches_one_rental
    (s : Db.t) (user : option Session.user) (rentalId : option string)
    (now : Z) :
  let s' := snd (put_users_return user rentalId now s) in
  (Db.user s' = Db.user s /\ Db.author s' = Db.author s
   /\ Db.publisher s' = Db.publisher s /\ Db.book s' = Db.book s)
  /\ (exists f,
         Db.rental_log s' = map f (Db.rental_log s)
         /\ forall r, rentalKey (f r) = rentalKey r
                      /\ (Some (RentalLog.id r) <> rentalId -> f r = r))
  /\ (user = None ->
      fails_with (fst (put_users_return user rentalId now s)) Unauthenticated)
  /\ (user <> None -> rentalId = None ->
      fails_with (fst (put_users_return user rentalId now s)) Internal).
Proof.
  assert (Same : forall t : Db.t,
             exists f, Db.rental_log t = map f (Db.rental_log t)
                       /\ forall r, rentalKey (f r) = rentalKey r
                                    /\ (Some (RentalLog.id r) <> rentalId
                                        -> f r = r)).
  { intros t. exists (fun r => r). rewrite map_id. now split. }
  intros s'. subst s'. unfold put_users_return.
  destruct user as [u|]; [|repeat split; try apply Same; congruence].
  destruct rentalId as [i|]; [|repeat split; try apply Same; congruence].
  destruct (Prisma.findUnique _ _) as [rental|];
    [|repeat split; try apply Same; congruence].
  destruct (negb _); [repeat split; try apply Same; congruence|].
  destruct (Prisma.update _ _ _) as [[r0 tbl]|] eqn:U;
    [|repeat split; try apply Same; congruence].
  apply update_inv in U. subst tbl. simpl.
  repeat split; try congruence.
  eexists. split; [reflexivity|]. intros r. simpl.
  destruct (Prisma.rental_id i r) eqn:K; split; try reflexivity.
  intros N. apply rental_id_true in K. congruence.
Qed.

Lemma return_touches_one_rental_witness :
  fails_with (fst (put_users_return None (Some "rental-1") 5 shelf_out))
    Unauthenticated
  /\ fails_with (fst (put_users_return (Some alice) None 5 shelf_out))
       Internal.
Proof.
  split.
  - apply (proj1 (proj2 (proj2
             (return_touches_one_rental shelf_out None (Some "rental-1")
                5)))).
    reflexivity.
  - apply (proj2 (proj2 (proj2
             (return_touches_one_rental shelf_out (Some alice) None 5)))).
    + discriminate.
    + reflexivity.
Defined.

(* ================================================================== *)
(** ** Invariants of the whole application *)

Lemma app_keeps_rental_log (r : request) (s : Db.t) :
  match r with
  | POST_book_rental _ _ _ _ _ | PUT_users_return _ _ _ => True
  | _ => Db.rental_log (snd (app r s)) = Db.rental_log s
  end.
Proof.
  destruct r; simpl; try reflexivity; try exact I.
  - unfold post_users_register. split_handler; reflexivity.
  - unfold put_users_change. split_handler; reflexivity.
  - unfold admin. destruct (requireAdmin user acc s); [reflexivity|].
    destruct op; simpl; try reflexivity.
    all: match goal with
         | |- context [snd (?h _ _ _ _ _ _ _)] => unfold h
         | |- context [snd (?h _ _ _)] => unfold h
         | |- context [snd (?h _ _)] => unfold h
         end.
    all: split_handler; reflexivity.
Qed.

Lemma returned_date_update (k : RentalLog.t -> bool) (d : Z)
    (l : list RentalLog.t) :
  (forall r, In r l -> RentalLog.returned_date r <> None) ->
  forall r,
    In r (map (fun x => if k x then RentalLog.set_returned_date (Some d) x
                        else x) l) ->
    RentalLog.returned_date r <> None.
Proof.
  intros H r Hr. apply in_map_iff in Hr. destruct Hr as (x & <- & Hx).
  destruct (k x); [discriminate | now apply H].
Qed.

(** No route stores a rental without its [returned_date]. *)
Lemma app_returned_date_required (r : request) (s : Db.t) :
  returned_date_required s -> returned_date_required (snd (app r s)).
Proof.
  intros H. pose proof (app_keeps_rental_log r s) as K.
  destruct r; try (unfold returned_date_required in *; rewrite K; exact H).
  - simpl. now rewrite post_book_rental_store.
  - simpl. unfold put_users_return.
    split_handler; simpl; try exact H. use_inversions.
    unfold returned_date_required. simpl.
    now apply returned_date_update.
Qed.

Lemma serve_returned_date_required (rs : list request) :
  forall s, returned_date_required s -> returned_date_required (serve rs s).
Proof.
  induction rs as [|r rs IH]; intros s H; simpl; [exact H|].
  apply IH. now apply app_returned_date_required.
Qed.

Lemma shelf_out_returned_date_required : returned_date_required shelf_out.
Proof. intros r [<-|[]]. discriminate. Qed.






(** X9: the keys and unique indexes of the migration, and the fact that
    every rental refers to a stored book, are kept by every sequence of
    requests. *)
Theorem consistency_is_invariant (rs : list request) (s : Db.t) :
  consistent s -> consistent (serve rs s).
Proof.
  revert s. induction rs as [|r rs IH]; intros s H; simpl; [exact H|].
  apply IH. now apply app_consistent.
Qed.

Lemma consistency_is_invariant_witness :
  consistent
    (serve [POST_book_rental (Some alice) (Some 9780000000001) 7 7 "rental-1";
            Admin (Some carol) jsonOnly
              (CreateBook (Some (Some 9780000000003)) (Some "Botchan")
                 (Some "au-1") (Some "pu-1") (Some 1906) (Some 4))]
       shelf).
Proof.
  apply (consistency_is_invariant
           [POST_book_rental (Some alice) (Some 9780000000001) 7 7 "rental-1";
            Admin (Some carol) jsonOnly
              (CreateBook (Some (Some 9780000000003)) (Some "Botchan")
                 (Some "au-1") (Some "pu-1") (Some 1906) (Some 4))]
           shelf).
  split.
  - constructor; simpl; repeat constructor; simpl; intuition discriminate.
  - intros r [].
Defined.

(** X10: the tables of rentals and of books only grow: after any sequence
    of requests every rental that was stored is still stored, in the same
    place and with the same id, book, user, checkout date and due date,
    and every isbn that had a book row still has one (rows are flagged,
    never removed). *)
Theorem history_is_append_only (rs : list request) (s : Db.t) :
  (exists added,
      map rentalKey (Db.rental_log (serve rs s))
      = map rentalKey (Db.rental_log s) ++ added)
  /\ (exists added,
         map Book.isbn (Db.book (serve rs s))
         = map Book.isbn (Db.book s) ++ added).
Proof. exact (serve_evolves rs s). Qed.

Lemma filter_admin_update (k : User.t -> bool) (n : string)
    (l : list User.t) :
  map User.id
    (filter User.is_admin
       (map (fun x => if k x then User.set_name n x else x) l))
  = map User.id (filter User.is_admin l).
Proof.
  induction l as [|x l IH]; simpl; [reflexivity|].
  destruct (k x); simpl; destruct (User.is_admin x); simpl;
    now rewrite IH.
Qed.

Lemma app_admins (r : request) (s : Db.t) : admins (snd (app r s)) = admins s.
Proof.
  unfold admins. destruct r; simpl; try reflexivity.
  - now rewrite post_book_rental_store.
  - unfold post_users_register. split_handler; simpl; try reflexivity.
    use_inversions. rewrite filter_app, map_app. simpl.
    apply app_nil_r.
  - unfold put_users_change. split_handler; simpl; try reflexivity.
    use_inversions. apply filter_admin_update.
  - unfold put_users_return. split_handler; reflexivity.
  - unfold admin. destruct (requireAdmin user acc s); [reflexivity|].
    destruct op; simpl; try reflexivity.
    all: match goal with
         | |- context [snd (?h _ _ _ _ _ _ _)] => unfold h
         | |- context [snd (?h _ _ _)] => unfold h
         | |- context [snd (?h _ _)] => unfold h
         end.
    all: split_handler; reflexivity.
Qed.

(** X11: no route grants or revokes the admin role: after any sequence of
    requests the administrators are the same users as before
    (registration creates users without the role, and nothing else writes
    the flag). *)
Theorem admins_never_change (rs : list request) (s : Db.t) :
  admins (serve rs s) = admins s.
Proof.
  revert s. induction rs as [|r rs IH]; intros s; simpl; [reflexivity|].
  now rewrite IH, app_admins.
Qed.

(** X12: the gate lets a request through exactly when the caller is
    logged in and the user row of that id carries the admin flag; such a
    request gets the answer and the effect of the handler behind the
    gate. *)
Theorem admin_gate_passes_exactly
    (user : option Session.user) (acc : accepts) (s : Db.t) :
  (requireAdmin user acc s = next <-> admin_identity user s)
  /\ (admin_identity user s ->
      forall op, admin user acc op s = admin_handler op s).
Proof.
  assert (P : admin_identity user s -> requireAdmin user acc s = next).
  { intros (u & row & -> & I & F & Adm). unfold requireAdmin.
    apply String.eqb_neq in I. now rewrite I, F, Adm. }
  split.
  - split; [apply requireAdmin_next_inv | exact P].
  - intros H op. unfold admin. now rewrite (P H).
Qed.

Lemma admin_gate_passes_exactly_witness :
  admin (Some carol) browser ListBooks shelf = admin_handler ListBooks shelf.
Proof.
  refine (proj2 (admin_gate_passes_exactly (Some carol) browser shelf) _
            ListBooks).
  exists carol, (User.mk "user-c" "carol@example.org" "Carol" "$argon2id$c"
                   true true).
  repeat split. discriminate.
Defined.

(* ================================================================== *)
(** ** Registering and withdrawing books and authors *)

Lemma orElse_nonempty (x d : string) : x <> "" -> orElse (Some x) d = x.
Proof. destruct x; [contradiction | reflexivity]. Qed.

Lemma falsy_nonempty (x : string) : x <> "" -> falsy (Some x) = false.
Proof. destruct x; [contradiction | reflexivity]. Qed.

(** X13: a book is registered only under an isbn that no row has yet,
    soft-deleted rows included: for an isbn that has a row the route
    answers 400 (to a JSON client) with the store unchanged, whatever the
    other fields; for a new isbn and complete fields it appends the book,
    not soft-deleted. *)
Theorem book_registration_outcomes (s : Db.t) (isbn : Z) :
  (In isbn (map Book.isbn (Db.book s)) ->
   forall title a p y m,
   exists msg,
     post_admin_book (Some (Some isbn)) title a p y m s
     = (format (redirect "/admin/book?error=failed")
          (status_json 400 (message msg)), s))
  /\
  (~ In isbn (map Book.isbn (Db.book s)) ->
   forall title a p y m,
     title <> "" ->
     post_admin_book (Some (Some isbn)) (Some title) (Some a) (Some p)
       (Some y) (Some m) s
     = (format (redirect "/admin/book")
          (status_json 200 (message "登録しました")),
        Db.set_book (Db.book s ++ [Book.mk isbn title a p y m false]) s)).
Proof.
  split.
  - intros Hin title a p y m. unfold post_admin_book.
    destruct (falsy title); [eauto|].
    destruct (Prisma.findUnique _ _) as [b|] eqn:F;
      [|apply findUnique_book_None in F; contradiction].
    destruct (negb (Book.isDeleted b)); [eauto|].
    destruct a as [a|]; [|eauto]. destruct p as [p|]; [|eauto].
    destruct y as [y|]; [|eauto]. destruct m as [m|]; [|eauto].
    unfold Prisma.create.
    assert (existsb (Prisma.book_collides
                       (Book.mk isbn (orElse title "") a p y m false))
              (Db.book s) = true) as ->; [|eauto].
    apply existsb_exists. exists b.
    destruct (findUnique_book_Some _ _ _ F) as [Hb Hi]. split; [exact Hb|].
    unfold Prisma.book_collides. simpl. rewrite Hi. apply Z.eqb_refl.
  - intros Hn title a p y m T. unfold post_admin_book.
    rewrite (falsy_nonempty _ T), (orElse_nonempty _ _ T).
    rewrite (proj2 (findUnique_book_None _ _) Hn).
    unfold Prisma.create.
    destruct (existsb _ _) eqn:E; [|reflexivity].
    apply existsb_exists in E. destruct E as (b & Hb & C).
    unfold Prisma.book_collides in C. simpl in C. apply Z.eqb_eq in C.
    exfalso. apply Hn. rewrite C. now apply in_map.
Qed.

Lemma book_registration_outcomes_witness :
  (exists msg,
      post_admin_book (Some (Some 9780000000002)) (Some "Gan, again")
        (Some "au-2") (Some "pu-1") (Some 2020) (Some 1) shelf
      = (format (redirect "/admin/book?error=failed")
           (status_json 400 (message msg)), shelf))
  /\ post_admin_book (Some (Some 9780000000003)) (Some "Botchan")
       (Some "au-1") (Some "pu-1") (Some 1906) (Some 4) shelf
     = (format (redirect "/admin/book")
          (status_json 200 (message "登録しました")),
        Db.set_book
          (Db.book shelf
           ++ [Book.mk 9780000000003 "Botchan" "au-1" "pu-1" 1906 4 false])
          shelf).
Proof.
  split.
  - apply (proj1 (book_registration_outcomes shelf 9780000000002)).
    simpl. tauto.
  - apply (proj2 (book_registration_outcomes shelf 9780000000003)).
    + simpl. intuition discriminate.
    + discriminate.
Defined.












(* ================================================================== *)
(** ** The rentals of a user *)

Lemma logs_In (u : Session.user) (s : Db.t) (r : RentalLog.t) :
  In r (logs u s)
  <-> In r (Db.rental_log s) /\ RentalLog.user_id r = Session.id u.
Proof.
  unfold logs, Prisma.findMany. now rewrite orderBy_In, filter_In, String.eqb_eq.
Qed.

(** X16: the history of a logged-in user lists the rentals of that user
    and no others, each one once, latest checkout first; without a login
    a JSON client is answered 401. *)
Theorem history_lists_own_rentals
    (u : Session.user) (error : option string) (s : Db.t) :
  listed "history" (get_users_history (Some u) error s)
  = map (historyData s) (logs u s)
  /\ (forall r, In r (logs u s) <->
                In r (Db.rental_log s)
                /\ RentalLog.user_id r = Session.id u)
  /\ Permutation (logs u s)
       (filter (fun r => String.eqb (RentalLog.user_id r) (Session.id u))
          (Db.rental_log s))
  /\ inOrder laterFirst (logs u s)
  /\ get_users_history None error s
     = format (redirect "/users/login")
         (status_json 401 (message "未ログイン")).
Proof.
  split; [reflexivity|]. split; [apply logs_In|].
  split; [apply orderBy_perm|]. split; [|reflexivity].
  apply orderBy_inOrder; [exact laterFirst_asym | exact laterFirst_negtrans].
Qed.

(* ================================================================== *)
(** ** Accounts *)

Lemma falsy_given (a : option string) (x : string) :
  given a x -> falsy a = false /\ orElse a "" = x.
Proof.
  intros [-> N]. split; [now apply falsy_nonempty | now apply orElse_nonempty].
Qed.

Lemma falsy_not_given (a : option string) :
  (forall x, ~ given a x) -> falsy a = true.
Proof.
  intros H. destruct a as [[|c r]|]; try reflexivity.
  exfalso. apply (H (String c r)). split; [reflexivity | discriminate].
Qed.

(** X19: a registration stores a user only when name, email and password
    are all given, the email is not stored yet and the generated id is
    new; the row it appends carries the hash (not the password), no admin
    role and no soft-delete flag.  In every other case the store is left
    as it was and a JSON client is answered 400. *)
Theorem registration_outcomes
    (s : Db.t) (name email password : option string)
    (hashedPassword uuid : string) :
  let refused r :=
    exists reason,
      r = format (redirect "/users/register")
            (status_json 400 (JObj [("reason", JStr reason)])) in
  ((forall x, ~ given name x) \/ (forall x, ~ given email x)
   \/ (forall x, ~ given password x) ->
   refused (fst (post_users_register name email password hashedPassword
                   uuid s))
   /\ snd (post_users_register name email password hashedPassword uuid s)
      = s)
  /\
  (forall n e p,
      given name n -> given email e -> given password p ->
      (In uuid (map User.id (Db.user s))
       \/ In e (map User.email (Db.user s)) ->
       refused (fst (post_users_register name email password hashedPassword
                       uuid s))
       /\ snd (post_users_register name email password hashedPassword uuid s)
          = s)
      /\
      (~ In uuid (map User.id (Db.user s)) ->
       ~ In e (map User.email (Db.user s)) ->
       post_users_register name email password hashedPassword uuid s
       = (format (redirect "/users/login") (status_send 200),
          Db.set_user
            (Db.user s ++ [User.mk uuid e n hashedPassword false false])
            s))).
Proof.
  intros refused. split.
  - intros H. unfold post_users_register.
    assert (falsy email || falsy name || falsy password = true) as ->.
    { destruct H as [H|[H|H]]; rewrite (falsy_not_given _ H);
        destruct (falsy email); destruct (falsy name); reflexivity. }
    split; [|reflexivity]. now eexists.
  - intros n e p Gn Ge Gp. unfold post_users_register.
    destruct (falsy_given _ _ Gn) as [-> ->].
    destruct (falsy_given _ _ Ge) as [-> ->].
    destruct (falsy_given _ _ Gp) as [-> _]. simpl orb. cbv iota.
    unfold Prisma.create. split.
    + intros C.
      assert (existsb (Prisma.user_collides
                         (User.mk uuid e n hashedPassword false false))
                (Db.user s) = true) as ->.
      { apply existsb_exists. unfold Prisma.user_collides. simpl.
        destruct C as [C|C]; apply in_map_iff in C;
          destruct C as (x & E & Hx); exists x; (split; [exact Hx|]);
          rewrite E; rewrite String.eqb_refl; auto using orb_true_r. }
      split; [|reflexivity]. now eexists.
    + intros N1 N2. destruct (existsb _ _) eqn:E; [|reflexivity].
      apply existsb_exists in E. destruct E as (x & Hx & C).
      unfold Prisma.user_collides in C. simpl in C.
      apply orb_true_iff in C.
      destruct C as [C|C]; apply String.eqb_eq in C; exfalso;
        [apply N1 | apply N2]; rewrite C; now apply in_map.
Qed.

Lemma registration_outcomes_witness :
  (exists reason,
      fst (post_users_register (Some "Dan") (Some "alice@example.org")
             (Some "pw") "$argon2id$d" "user-d" shelf)
      = format (redirect "/users/register")
          (status_json 400 (JObj [("reason", JStr reason)])))
  /\ post_users_register (Some "Dan") (Some "dan@example.org") (Some "pw")
       "$argon2id$d" "user-d" shelf
     = (format (redirect "/users/login") (status_send 200),
        Db.set_user
          (Db.user shelf
           ++ [User.mk "user-d" "dan@example.org" "Dan" "$argon2id$d"
                 false false]) shelf).
Proof.
  split.
  - refine (proj1 (proj1 (proj2
              (registration_outcomes shelf (Some "Dan")
                 (Some "alice@example.org") (Some "pw") "$argon2id$d"
                 "user-d") "Dan" "alice@example.org" "pw" _ _ _) _));
      try (split; [reflexivity | discriminate]).
    right. simpl. now left.
  - refine (proj2 (proj2
              (registration_outcomes shelf (Some "Dan")
                 (Some "dan@example.org") (Some "pw") "$argon2id$d"
                 "user-d") "Dan" "dan@example.org" "pw" _ _ _) _ _);
      try (split; [reflexivity | discriminate]);
      simpl; intuition discriminate.
Defined.


